(** * CoffeeOrder: a fluent builder for coffee orders (src/main.py)

    A shallow embedding of [CoffeeOrder] and [CoffeeOrderBuilder] and the
    properties of their validation, pricing and description rules.

    Modelling choices.
    - A Python [str] is a [string] whose characters are code points below 256.
    - A Python [int] is a [Z]; a Python [float] is an IEEE 754 binary64 value,
      here a primitive [float]; [int * float] and [float + int] convert the
      integer operand first, as the interpreter does.
    - The class-level dictionaries keep their insertion order (the error
      messages enumerate the keys), so they are association lists.
    - The builder's [syrups] attribute is a Python [set] of strings: a
      [gset string].  [tuple(self.syrups)] enumerates it without duplicates;
      the enumeration order of a Python set is unspecified and [elements]
      fixes one.
    - Exceptions are values of [exn]; a method of the builder is a function
      from the builder's state to an outcome and the state it leaves.
    - What an order shares with its builder is settled on a heap of objects
      and references ([Heap]), whose methods follow the same source lines;
      they are shown to do to the builder what the methods on values do. *)

From Stdlib Require Import ZArith List Ascii String Floats Lia.
From stdpp Require Import base strings gmap pretty.
Import ListNotations.

Local Open Scope string_scope.
Local Open Scope list_scope.
Local Open Scope Z_scope.

(** ** Exceptions and outcomes *)

Inductive exn : Type :=
  | ValueError (msg : string)
  | KeyError (key : string)
  | TypeError (msg : string)
  | OverflowError (msg : string).

Inductive result (A : Type) : Type :=
  | Ok (a : A)
  | Raise (e : exn).
Arguments Ok {A} a.
Arguments Raise {A} e.

#[global] Instance result_ret : MRet result := fun _ a => Ok a.
#[global] Instance result_bind : MBind result := fun _ _ k r =>
  match r with
  | Ok a => k a
  | Raise e => Raise e
  end.

(** ** The pieces of Python the program uses *)

Module Py.

(** [sep.join(l)] *)
Fixpoint join (sep : string) (l : list string) : string :=
  match l with
  | [] => ""
  | [x] => x
  | x :: l' => x +:+ sep +:+ join sep l'
  end.

(** The code points below 256 that [str.strip] removes. *)
Definition isspace (a : ascii) : bool :=
  let n := N_of_ascii a in
  ((9 <=? n) && (n <=? 13) || (28 <=? n) && (n <=? 32)
   || (n =? 133) || (n =? 160))%N.

Fixpoint lstrip (s : string) : string :=
  match s with
  | String a s' => if isspace a then lstrip s' else s
  | EmptyString => EmptyString
  end.

Fixpoint rstrip (s : string) : string :=
  match s with
  | String a s' =>
      match rstrip s' with
      | EmptyString => if isspace a then EmptyString else String a EmptyString
      | r => String a r
      end
  | EmptyString => EmptyString
  end.

Definition strip (s : string) : string := rstrip (lstrip s).

(** [needle in hay] on strings *)
Fixpoint str_in (needle hay : string) : bool :=
  String.prefix needle hay ||
  match hay with
  | String _ hay' => str_in needle hay'
  | EmptyString => false
  end.

(** A dict with string keys, in insertion order. *)
Definition dict (V : Type) : Type := list (string * V).

Definition keys {V} (d : dict V) : list string := map fst d.

Fixpoint get {V} (d : dict V) (k : string) : option V :=
  match d with
  | [] => None
  | (k', v) :: d' => if String.eqb k k' then Some v else get d' k
  end.

(** [k in d] *)
Definition contains {V} (d : dict V) (k : string) : bool :=
  match get d k with Some _ => true | None => false end.

(** [d[k]] *)
Definition getitem {V} (d : dict V) (k : string) : result V :=
  match get d k with
  | Some v => Ok v
  | None => Raise (KeyError k)
  end.

(** Conversion of an [int] operand to [float]: correctly rounded, and an
    [OverflowError] beyond the range of binary64. *)
Definition float_of_int (z : Z) : result float :=
  let f := SF2Prim (binary_normalize prec emax z 0 false) in
  if PrimFloat.is_infinity f
  then Raise (OverflowError "int too large to convert to float")
  else Ok f.

(** [i * x] and [x + i] for an int [i] and a float [x] *)
Definition int_mul_float (i : Z) (x : float) : result float :=
  fi ← float_of_int i; mret (fi * x)%float.

Definition float_add_int (x : float) (i : Z) : result float :=
  fi ← float_of_int i; mret (x + fi)%float.

(** [n * 2^e] rounded to the nearest integer, ties to even. *)
Definition round_half_even (n e : Z) : Z :=
  if 0 <=? e then n * 2 ^ e
  else
    let d := 2 ^ (- e) in
    let q := n / d in
    let r := n mod d in
    if 2 * r <? d then q
    else if d <? 2 * r then q + 1
    else if Z.even q then q else q + 1.

Definition two_digits (n : Z) : string :=
  if n <? 10 then "0" +:+ pretty n else pretty n.

(** [f"{x:.2f}"] *)
Definition format_2f (x : float) : string :=
  match Prim2SF x with
  | S754_nan => "nan"
  | S754_infinity s => if s then "-inf" else "inf"
  | S754_zero s => (if s then "-" else "") +:+ "0.00"
  | S754_finite s m e =>
      let cents := round_half_even (100 * Z.pos m) e in
      (if s then "-" else "") +:+ pretty (cents / 100) +:+ "."
        +:+ two_digits (cents mod 100)
  end.

End Py.

(** ** class CoffeeOrder *)

(** The dictionary [build] passes as [pricing]: its five keys are fixed, so
    it is a record of its five values. *)
Record pricing_t : Type := {
  base_prices : Py.dict Z;
  size_multipliers : Py.dict float;
  milk_prices : Py.dict Z;
  syrup_price : Z;
  ice_price : Z;
}.

Module CoffeeOrder.

Record t : Type := {
  base : string;
  size : string;
  milk : string;
  syrups : list string;
  sugar : Z;
  iced : bool;
  price : float;
  description : string;
}.

(** [_calculate_price] reads [self.base], [self.size], [self.milk],
    [self.syrups] and [self.iced]. *)
Definition _calculate_price (base size milk : string) (syrups : list string)
    (iced : bool) (pricing : option pricing_t) : result float :=
  match pricing with
  | None => Raise (TypeError "'NoneType' object is not subscriptable")
  | Some pricing =>
      base_price ← Py.getitem (base_prices pricing) base;
      size_multiplier ← Py.getitem (size_multipliers pricing) size;
      milk_price ← Py.getitem (milk_prices pricing) milk;
      let syrup_price := syrup_price pricing * Z.of_nat (length syrups) in
      let ice_price := if iced then ice_price pricing else 0 in
      total ← Py.int_mul_float (base_price + milk_price + syrup_price)
                size_multiplier;
      total ← Py.float_add_int total ice_price;
      mret total
  end.

Definition _generate_description (base size milk : string)
    (syrups : list string) (sugar : Z) (iced : bool) : string :=
  let extra_parts : list string := [] in
  let extra_parts :=
    if negb (String.eqb milk "none")
    then extra_parts ++ ["with " +:+ milk +:+ " milk"] else extra_parts in
  let extra_parts :=
    match syrups with
    | [] => extra_parts
    | _ => extra_parts ++ ["+" +:+ Py.join ", " syrups]
    end in
  let extra_parts :=
    if iced then extra_parts ++ ["(iced)"] else extra_parts in
  let extra_parts :=
    if 0 <? sugar
    then extra_parts ++ [pretty sugar +:+ " tsp sugar"] else extra_parts in
  match extra_parts with
  | [] => ""
  | _ => size +:+ " " +:+ base +:+ " " +:+ Py.strip (Py.join " " extra_parts)
  end.

(** The constructor, with every argument given ([build] gives them all; the
    default of [pricing] is [None]). *)
Definition __init__ (base size milk : string) (syrups : list string)
    (sugar : Z) (iced : bool) (pricing : option pricing_t) : result t :=
  price ← _calculate_price base size milk syrups iced pricing;
  let description := _generate_description base size milk syrups sugar iced in
  mret {| base := base; size := size; milk := milk; syrups := syrups;
          sugar := sugar; iced := iced; price := price;
          description := description |}.

Definition __str__ (self : t) : string :=
  match Py.strip (description self) with
  | EmptyString => Py.format_2f (price self) +:+ " RUB"
  | _ => description self
  end.

End CoffeeOrder.

(** ** class CoffeeOrderBuilder *)

Module CoffeeOrderBuilder.

Definition BASE_PRICES : Py.dict Z :=
  [("espresso", 200); ("americano", 250); ("latte", 300);
   ("cappuccino", 320)].

(** The literals 1.0, 1.2 and 1.4 denote the binary64 values nearest to
    them, written here exactly. *)
Definition SIZE_MULTIPLIERS : Py.dict float :=
  [("small", 0x1p+0%float);
   ("medium", 0x1.3333333333333p+0%float);
   ("large", 0x1.6666666666666p+0%float)].

Definition MILK_PRICES : Py.dict Z :=
  [("whole", 30); ("skim", 30); ("oat", 60); ("soy", 50); ("none", 0)].

Definition SYRUP_PRICE : Z := 40.
Definition ICE_PRICE : Z := 20.
Definition MAX_SYRUPS : Z := 4.
Definition MAX_SUGAR : Z := 5.

(** The attributes of a builder; [base] and [size] start as [None]. *)
Record t : Type := {
  base : option string;
  size : option string;
  milk : string;
  syrups : gset string;
  sugar : Z;
  iced : bool;
}.

(** A method: the outcome of the call and the attributes it leaves. *)
Definition M (A : Type) : Type := t -> result A * t.

Definition ret {A} (a : A) : M A := fun self => (Ok a, self).

Definition raise {A} (e : exn) : M A := fun self => (Raise e, self).

Definition bind {A B} (m : M A) (k : A -> M B) : M B := fun self =>
  match m self with
  | (Ok a, self') => k a self'
  | (Raise e, self') => (Raise e, self')
  end.

Definition read {A} (f : t -> A) : M A := fun self => (Ok (f self), self).

Definition assign (f : t -> t) : M unit := fun self => (Ok tt, f self).

Definition lift {A} (r : result A) : M A := fun self => (r, self).

Definition when (c : bool) (m : M unit) : M unit :=
  if c then m else ret tt.

Declare Scope builder_scope.
Delimit Scope builder_scope with builder.
Notation "'let*' x := m 'in' k" := (bind m (fun x => k))
  (at level 10, x name, m at level 100, k at level 200) : builder_scope.
Notation "m ;; k" := (bind m (fun _ => k))
  (at level 100, k at level 200, right associativity) : builder_scope.
Local Open Scope builder_scope.

(** [CoffeeOrderBuilder()] *)
Definition __init__ : t :=
  {| base := None; size := None; milk := "none"; syrups := ∅;
     sugar := 0; iced := false |}.

(** Every setter ends in [return self]: the value returned is the object
    whose attributes the call leaves, so the model returns [tt] and a
    chain of calls is a sequence of calls on the same state. *)
Definition set_base (base' : string) : M unit :=
  when (negb (Py.contains BASE_PRICES base'))
    (raise (ValueError
       ("Base must be one of: " +:+ Py.join ", " (Py.keys BASE_PRICES)))) ;;
  assign (fun self =>
    {| base := Some base'; size := size self; milk := milk self;
       syrups := syrups self; sugar := sugar self; iced := iced self |}).

Definition set_size (size' : string) : M unit :=
  when (negb (Py.contains SIZE_MULTIPLIERS size'))
    (raise (ValueError
       ("Size must be one of: "
          +:+ Py.join ", " (Py.keys SIZE_MULTIPLIERS)))) ;;
  assign (fun self =>
    {| base := base self; size := Some size'; milk := milk self;
       syrups := syrups self; sugar := sugar self; iced := iced self |}).

Definition set_milk (milk' : string) : M unit :=
  when (negb (Py.contains MILK_PRICES milk'))
    (raise (ValueError
       ("Milk must be one of: " +:+ Py.join ", " (Py.keys MILK_PRICES)))) ;;
  assign (fun self =>
    {| base := base self; size := size self; milk := milk';
       syrups := syrups self; sugar := sugar self; iced := iced self |}).

Definition add_syrup (name : string) : M unit :=
  let* n := read (fun self => Z.of_nat (stdpp.base.size (syrups self))) in
  when (MAX_SYRUPS <=? n)
    (raise (ValueError
       ("Maximum " +:+ pretty MAX_SYRUPS +:+ " syrups allowed"))) ;;
  assign (fun self =>
    {| base := base self; size := size self; milk := milk self;
       syrups := {[ name ]} ∪ syrups self; sugar := sugar self;
       iced := iced self |}).

Definition set_sugar (teaspoons : Z) : M unit :=
  when (negb ((0 <=? teaspoons) && (teaspoons <=? MAX_SUGAR)))
    (raise (ValueError
       ("Sugar must be between 0 and " +:+ pretty MAX_SUGAR))) ;;
  assign (fun self =>
    {| base := base self; size := size self; milk := milk self;
       syrups := syrups self; sugar := teaspoons; iced := iced self |}).

(** [iced] defaults to [True]: [set_iced()] is [set_iced true]. *)
Definition set_iced (iced' : bool) : M unit :=
  assign (fun self =>
    {| base := base self; size := size self; milk := milk self;
       syrups := syrups self; sugar := sugar self; iced := iced' |}).

Definition clear_extras : M unit :=
  assign (fun self =>
    {| base := base self; size := size self; milk := "none";
       syrups := syrups self; sugar := sugar self; iced := iced self |}) ;;
  assign (fun self =>
    {| base := base self; size := size self; milk := milk self;
       syrups := ∅; sugar := sugar self; iced := iced self |}) ;;
  assign (fun self =>
    {| base := base self; size := size self; milk := milk self;
       syrups := syrups self; sugar := 0; iced := iced self |}) ;;
  assign (fun self =>
    {| base := base self; size := size self; milk := milk self;
       syrups := syrups self; sugar := sugar self; iced := false |}).

(** The [pricing] dictionary of [build]. *)
Definition pricing : pricing_t :=
  {| base_prices := BASE_PRICES; size_multipliers := SIZE_MULTIPLIERS;
     milk_prices := MILK_PRICES; syrup_price := SYRUP_PRICE;
     ice_price := ICE_PRICE |}.

Definition build : M CoffeeOrder.t :=
  let* base := read base in
  match base with
  | None => raise (ValueError "Base is required")
  | Some base =>
      let* size := read size in
      match size with
      | None => raise (ValueError "Size is required")
      | Some size =>
          let* milk := read milk in
          let* syrups := read (fun self => elements (syrups self)) in
          let* sugar := read sugar in
          let* iced := read iced in
          lift (CoffeeOrder.__init__ base size milk syrups sugar iced
                  (Some pricing))
      end
  end.

End CoffeeOrderBuilder.

(** ** Calls on a builder *)

Import CoffeeOrderBuilder.
Local Open Scope builder_scope.

(** One call of the builder's interface. *)
Inductive call : Type :=
  | SetBase (base : string)
  | SetSize (size : string)
  | SetMilk (milk : string)
  | AddSyrup (name : string)
  | SetSugar (teaspoons : Z)
  | SetIced (iced : bool)
  | ClearExtras
  | Build.

(** The call's outcome: the order for [Build], nothing for the others. *)
Definition run_call (c : call) : M (option CoffeeOrder.t) :=
  match c with
  | SetBase base => set_base base ;; ret None
  | SetSize size => set_size size ;; ret None
  | SetMilk milk => set_milk milk ;; ret None
  | AddSyrup name => add_syrup name ;; ret None
  | SetSugar teaspoons => set_sugar teaspoons ;; ret None
  | SetIced iced => set_iced iced ;; ret None
  | ClearExtras => clear_extras ;; ret None
  | Build => let* order := build in ret (Some order)
  end.

(** The states a builder can be in: a fresh one, and whatever a call leaves,
    whether the call returned or raised (and the caller caught it). *)
Inductive reachable : CoffeeOrderBuilder.t -> Prop :=
  | reachable_init : reachable __init__
  | reachable_call (c : call) (self : CoffeeOrderBuilder.t) :
      reachable self -> reachable (snd (run_call c self)).

(** What the setters' checks maintain. *)
Definition valid (self : CoffeeOrderBuilder.t) : bool :=
  match base self with
  | None => true
  | Some base => Py.contains BASE_PRICES base
  end
  && match size self with
     | None => true
     | Some size => Py.contains SIZE_MULTIPLIERS size
     end
  && Py.contains MILK_PRICES (milk self)
  && (Z.of_nat (stdpp.base.size (syrups self)) <=? MAX_SYRUPS)
  && (0 <=? sugar self) && (sugar self <=? MAX_SUGAR).

(** ** Objects and references

    The value model above keeps the builder's set inside the builder.  For
    what an order shares with its builder the objects are placed in a heap:
    an attribute holds a reference, [self.syrups.add] and
    [self.syrups.clear] change the set object in place, [tuple(...)] creates
    a new object, and [CoffeeOrder.__init__] stores in [self.syrups] the
    reference it is given. *)

(** A reference is the address of an object. *)
Abbreviation ref := nat (only parsing).

Module OrderObject.

Record t : Type := {
  base : string;
  size : string;
  milk : string;
  syrups : ref;
  sugar : Z;
  iced : bool;
  price : float;
  description : string;
}.

End OrderObject.

Module BuilderObject.

Record t : Type := {
  base : option string;
  size : option string;
  milk : string;
  syrups : ref;
  sugar : Z;
  iced : bool;
}.

End BuilderObject.

Inductive object : Type :=
  | SetObject (names : gset string)
  | TupleObject (items : list string)
  | OrderOf (order : OrderObject.t)
  | BuilderOf (builder : BuilderObject.t).

Module Heap.

(** The object at an address is the element at that index; a new object goes
    to the end. *)
Abbreviation t := (list object) (only parsing).

Definition H (A : Type) : Type := t -> result A * t.

Definition ret {A} (a : A) : H A := fun h => (Ok a, h).

Definition raise {A} (e : exn) : H A := fun h => (Raise e, h).

Definition bind {A B} (m : H A) (k : A -> H B) : H B := fun h =>
  match m h with
  | (Ok a, h') => k a h'
  | (Raise e, h') => (Raise e, h')
  end.

Definition lift {A} (r : result A) : H A := fun h => (r, h).

Definition when (c : bool) (m : H unit) : H unit :=
  if c then m else ret tt.

Declare Scope heap_scope.
Delimit Scope heap_scope with heap.
Notation "'let*' x := m 'in' k" := (bind m (fun x => k))
  (at level 10, x name, m at level 100, k at level 200) : heap_scope.
Notation "m ;; k" := (bind m (fun _ => k))
  (at level 100, k at level 200, right associativity) : heap_scope.
Local Open Scope heap_scope.

Definition alloc (o : object) : H ref := fun h => (Ok (length h), h ++ [o]).

(** The attributes of the builder [self] refers to.  The program calls the
    methods on builders only; any other reference is a TypeError here. *)
Definition attributes (self : ref) : H BuilderObject.t := fun h =>
  match h !! self with
  | Some (BuilderOf b) => (Ok b, h)
  | _ => (Raise (TypeError "not a CoffeeOrderBuilder"), h)
  end.

(** Assignment to attributes of [self]. *)
Definition assign (self : ref) (b : BuilderObject.t) : H unit := fun h =>
  (Ok tt, <[self := BuilderOf b]> h).

(** The items an iteration over the object yields: [tuple(x)], [len(x)] and
    [', '.join(x)] go through it. *)
Definition iterate (r : ref) : H (list string) := fun h =>
  match h !! r with
  | Some (SetObject X) => (Ok (elements X), h)
  | Some (TupleObject l) => (Ok l, h)
  | _ => (Raise (TypeError "object is not iterable"), h)
  end.

(** [x.add(name)] and [x.clear()]: sets only, in place. *)
Definition set_add (r : ref) (name : string) : H unit := fun h =>
  match h !! r with
  | Some (SetObject X) => (Ok tt, <[r := SetObject ({[ name ]} ∪ X)]> h)
  | _ => (Raise (TypeError "object has no method add"), h)
  end.

Definition set_clear (r : ref) : H unit := fun h =>
  match h !! r with
  | Some (SetObject X) => (Ok tt, <[r := SetObject ∅]> h)
  | _ => (Raise (TypeError "object has no method clear"), h)
  end.

(** [len(x)] *)
Definition len (r : ref) : H Z :=
  let* items := iterate r in ret (Z.of_nat (length items)).

(** [tuple(x)]: a new tuple of the items of [x]. *)
Definition tuple (r : ref) : H ref :=
  let* items := iterate r in alloc (TupleObject items).

(** [CoffeeOrder(base, size, milk, syrups, sugar, iced, pricing)]: the new
    order keeps the reference [syrups]; price and description are computed
    from what it yields now ([len(self.syrups)], [if self.syrups] and
    [', '.join(self.syrups)] read the same items, nothing changing the
    object in between, so they are read once). *)
Definition new_order (base size milk : string) (syrups : ref) (sugar : Z)
    (iced : bool) (pricing : option pricing_t) : H ref :=
  let* items := iterate syrups in
  let* price :=
    lift (CoffeeOrder._calculate_price base size milk items iced pricing) in
  let description :=
    CoffeeOrder._generate_description base size milk items sugar iced in
  alloc (OrderOf
    {| OrderObject.base := base; OrderObject.size := size;
       OrderObject.milk := milk; OrderObject.syrups := syrups;
       OrderObject.sugar := sugar; OrderObject.iced := iced;
       OrderObject.price := price;
       OrderObject.description := description |}).

(** [CoffeeOrderBuilder()]: [self.syrups = set()] is a new set object. *)
Definition new_builder : H ref :=
  let* syrups := alloc (SetObject ∅) in
  alloc (BuilderOf
    {| BuilderObject.base := None; BuilderObject.size := None;
       BuilderObject.milk := "none"; BuilderObject.syrups := syrups;
       BuilderObject.sugar := 0; BuilderObject.iced := false |}).

(** [self.attribute = value] *)
Definition update (self : ref) (f : BuilderObject.t -> BuilderObject.t)
    : H unit :=
  let* b := attributes self in assign self (f b).

(** [self.syrups] *)
Definition syrups_of (self : ref) : H ref :=
  let* b := attributes self in ret (BuilderObject.syrups b).

Definition set_base (self : ref) (base : string) : H unit :=
  when (negb (Py.contains CoffeeOrderBuilder.BASE_PRICES base))
    (raise (ValueError
       ("Base must be one of: "
          +:+ Py.join ", " (Py.keys CoffeeOrderBuilder.BASE_PRICES)))) ;;
  update self (fun b =>
    {| BuilderObject.base := Some base;
       BuilderObject.size := BuilderObject.size b;
       BuilderObject.milk := BuilderObject.milk b;
       BuilderObject.syrups := BuilderObject.syrups b;
       BuilderObject.sugar := BuilderObject.sugar b;
       BuilderObject.iced := BuilderObject.iced b |}).

Definition set_size (self : ref) (size : string) : H unit :=
  when (negb (Py.contains CoffeeOrderBuilder.SIZE_MULTIPLIERS size))
    (raise (ValueError
       ("Size must be one of: "
          +:+ Py.join ", " (Py.keys CoffeeOrderBuilder.SIZE_MULTIPLIERS)))) ;;
  update self (fun b =>
    {| BuilderObject.base := BuilderObject.base b;
       BuilderObject.size := Some size;
       BuilderObject.milk := BuilderObject.milk b;
       BuilderObject.syrups := BuilderObject.syrups b;
       BuilderObject.sugar := BuilderObject.sugar b;
       BuilderObject.iced := BuilderObject.iced b |}).

Definition set_milk (self : ref) (milk : string) : H unit :=
  when (negb (Py.contains CoffeeOrderBuilder.MILK_PRICES milk))
    (raise (ValueError
       ("Milk must be one of: "
          +:+ Py.join ", " (Py.keys CoffeeOrderBuilder.MILK_PRICES)))) ;;
  update self (fun b =>
    {| BuilderObject.base := BuilderObject.base b;
       BuilderObject.size := BuilderObject.size b;
       BuilderObject.milk := milk;
       BuilderObject.syrups := BuilderObject.syrups b;
       BuilderObject.sugar := BuilderObject.sugar b;
       BuilderObject.iced := BuilderObject.iced b |}).

Definition add_syrup (self : ref) (name : string) : H unit :=
  let* syrups := syrups_of self in
  let* n := len syrups in
  when (CoffeeOrderBuilder.MAX_SYRUPS <=? n)
    (raise (ValueError
       ("Maximum " +:+ pretty CoffeeOrderBuilder.MAX_SYRUPS
          +:+ " syrups allowed"))) ;;
  let* syrups := syrups_of self in
  set_add syrups name.

Definition set_sugar (self : ref) (teaspoons : Z) : H unit :=
  when (negb ((0 <=? teaspoons)
              && (teaspoons <=? CoffeeOrderBuilder.MAX_SUGAR)))
    (raise (ValueError
       ("Sugar must be between 0 and "
          +:+ pretty CoffeeOrderBuilder.MAX_SUGAR))) ;;
  update self (fun b =>
    {| BuilderObject.base := BuilderObject.base b;
       BuilderObject.size := BuilderObject.size b;
       BuilderObject.milk := BuilderObject.milk b;
       BuilderObject.syrups := BuilderObject.syrups b;
       BuilderObject.sugar := teaspoons;
       BuilderObject.iced := BuilderObject.iced b |}).

Definition set_iced (self : ref) (iced : bool) : H unit :=
  update self (fun b =>
    {| BuilderObject.base := BuilderObject.base b;
       BuilderObject.size := BuilderObject.size b;
       BuilderObject.milk := BuilderObject.milk b;
       BuilderObject.syrups := BuilderObject.syrups b;
       BuilderObject.sugar := BuilderObject.sugar b;
       BuilderObject.iced := iced |}).

Definition clear_extras (self : ref) : H unit :=
  update self (fun b =>
    {| BuilderObject.base := BuilderObject.base b;
       BuilderObject.size := BuilderObject.size b;
       BuilderObject.milk := "none";
       BuilderObject.syrups := BuilderObject.syrups b;
       BuilderObject.sugar := BuilderObject.sugar b;
       BuilderObject.iced := BuilderObject.iced b |}) ;;
  (let* syrups := syrups_of self in set_clear syrups) ;;
  update self (fun b =>
    {| BuilderObject.base := BuilderObject.base b;
       BuilderObject.size := BuilderObject.size b;
       BuilderObject.milk := BuilderObject.milk b;
       BuilderObject.syrups := BuilderObject.syrups b;
       BuilderObject.sugar := 0;
       BuilderObject.iced := BuilderObject.iced b |}) ;;
  update self (fun b =>
    {| BuilderObject.base := BuilderObject.base b;
       BuilderObject.size := BuilderObject.size b;
       BuilderObject.milk := BuilderObject.milk b;
       BuilderObject.syrups := BuilderObject.syrups b;
       BuilderObject.sugar := BuilderObject.sugar b;
       BuilderObject.iced := false |}).

(** The arguments of [CoffeeOrder(...)] are evaluated first, among them
    [tuple(self.syrups)]. *)
Definition build (self : ref) : H ref :=
  let* b := attributes self in
  match BuilderObject.base b with
  | None => raise (ValueError "Base is required")
  | Some base =>
      match BuilderObject.size b with
      | None => raise (ValueError "Size is required")
      | Some size =>
          let* syrups := tuple (BuilderObject.syrups b) in
          new_order base size (BuilderObject.milk b) syrups
            (BuilderObject.sugar b) (BuilderObject.iced b)
            (Some CoffeeOrderBuilder.pricing)
      end
  end.

(** One call on the builder [self]; [Build] returns the new order. *)
Definition call_method (self : ref) (c : call) : H (option ref) :=
  match c with
  | SetBase base => set_base self base ;; ret None
  | SetSize size => set_size self size ;; ret None
  | SetMilk milk => set_milk self milk ;; ret None
  | AddSyrup name => add_syrup self name ;; ret None
  | SetSugar teaspoons => set_sugar self teaspoons ;; ret None
  | SetIced iced => set_iced self iced ;; ret None
  | ClearExtras => clear_extras self ;; ret None
  | Build => let* order := build self in ret (Some order)
  end.

(** The heap after a sequence of calls, each on some builder, exceptions
    caught. *)
Definition run (cs : list (ref * call)) (h : t) : t :=
  fold_left (fun h sc => snd (call_method (fst sc) (snd sc) h)) cs h.

(** What the attributes of an order read, its syrups through the
    reference. *)
Definition read_order (h : t) (order : ref) : option CoffeeOrder.t :=
  match h !! order with
  | Some (OrderOf o) =>
      match fst (iterate (OrderObject.syrups o) h) with
      | Ok items =>
          Some {| CoffeeOrder.base := OrderObject.base o;
                  CoffeeOrder.size := OrderObject.size o;
                  CoffeeOrder.milk := OrderObject.milk o;
                  CoffeeOrder.syrups := items;
                  CoffeeOrder.sugar := OrderObject.sugar o;
                  CoffeeOrder.iced := OrderObject.iced o;
                  CoffeeOrder.price := OrderObject.price o;
                  CoffeeOrder.description := OrderObject.description o |}
      | Raise _ => None
      end
  | _ => None
  end.

(** The builder as the value model has it: its attributes and the names in
    its set. *)
Definition builder_value (b : BuilderObject.t) (X : gset string)
    : CoffeeOrderBuilder.t :=
  {| CoffeeOrderBuilder.base := BuilderObject.base b;
     CoffeeOrderBuilder.size := BuilderObject.size b;
     CoffeeOrderBuilder.milk := BuilderObject.milk b;
     CoffeeOrderBuilder.syrups := X;
     CoffeeOrderBuilder.sugar := BuilderObject.sugar b;
     CoffeeOrderBuilder.iced := BuilderObject.iced b |}.

Definition read_builder (h : t) (self : ref)
    : option CoffeeOrderBuilder.t :=
  match h !! self with
  | Some (BuilderOf b) =>
      match h !! BuilderObject.syrups b with
      | Some (SetObject X) => Some (builder_value b X)
      | _ => None
      end
  | _ => None
  end.

End Heap.

(** What no method changes: the kind of an object, a tuple, an order, and
    the set a builder refers to. *)
Definition stable (h h' : Heap.t) : Prop :=
  forall (r : ref) (o : object),
    h !! r = Some o ->
    match o with
    | SetObject _ => exists X, h' !! r = Some (SetObject X)
    | TupleObject _ | OrderOf _ => h' !! r = Some o
    | BuilderOf b =>
        exists b', h' !! r = Some (BuilderOf b') /\
                   BuilderObject.syrups b' = BuilderObject.syrups b
    end.

(** [self] is a builder with attributes [b] whose syrups are the set [X]. *)
Definition points (h : Heap.t) (self : ref) (b : BuilderObject.t)
    (X : gset string) : Prop :=
  h !! self = Some (BuilderOf b) /\
  h !! BuilderObject.syrups b = Some (SetObject X).

(** The method [mh] on the heap and the method [mp] of the value model have
    the same outcome and leave the same builder. *)
Definition simulates (self : ref) (mh : Heap.H unit) (mp : M unit) : Prop :=
  forall h b X,
    points h self b X ->
    exists r h' b' X',
      mh h = (r, h') /\ points h' self b' X' /\
      mp (Heap.builder_value b X) = (r, Heap.builder_value b' X').

(** A computation that leaves every heap stable. *)
Definition keeps {A} (m : Heap.H A) : Prop :=
  forall h, stable h (snd (m h)).

(** The outcome of a call on the heap against its outcome in the value
    model. *)
Definition same_outcome (h : Heap.t) (r : result (option ref))
    (v : result (option CoffeeOrder.t)) : Prop :=
  match r, v with
  | Ok None, Ok None => True
  | Ok (Some order), Ok (Some value) => Heap.read_order h order = Some value
  | Raise e, Raise e' => e = e'
  | _, _ => False
  end.

(** The heap of the source's first test before [build]: a set at 0 and a
    builder at 1. *)
Definition latte_heap : Heap.t :=
  Heap.run [(1, SetBase "latte"); (1, SetSize "medium"); (1, SetMilk "oat");
            (1, AddSyrup "vanilla"); (1, SetSugar 2); (1, SetIced true)]%nat
    (snd (Heap.new_builder [])).

(** The builder after a sequence of calls on a fresh one. *)
Definition after (cs : list call) : CoffeeOrderBuilder.t :=
  fold_left (fun self c => snd (run_call c self)) cs __init__.

(** The chains of the source's own tests. *)
Definition latte_example : M CoffeeOrder.t :=
  set_base "latte" ;; set_size "medium" ;; set_milk "oat" ;;
  add_syrup "vanilla" ;; set_sugar 2 ;; set_iced true ;; build.

Definition four_syrups : CoffeeOrderBuilder.t :=
  after [SetBase "latte"; SetSize "small"; AddSyrup "a"; AddSyrup "b";
         AddSyrup "c"; AddSyrup "d"].

(** The order [latte_example] builds. *)
Definition latte_order : CoffeeOrder.t :=
  {| CoffeeOrder.base := "latte"; CoffeeOrder.size := "medium";
     CoffeeOrder.milk := "oat"; CoffeeOrder.syrups := ["vanilla"];
     CoffeeOrder.sugar := 2; CoffeeOrder.iced := true;
     CoffeeOrder.price := 500%float;
     CoffeeOrder.description :=
       "medium latte with oat milk +vanilla (iced) 2 tsp sugar" |}.

(** The errors of the specification, as the code raises them. *)
Definition MissingField (e : exn) : Prop :=
  e = ValueError "Base is required" \/ e = ValueError "Size is required".

Definition LimitExceeded (e : exn) : Prop :=
  e = ValueError "Maximum 4 syrups allowed".

(** ** The catalog and the price as the specification words them *)

Module Spec.

Definition basePrice (base : string) : option Z :=
  if String.eqb base "espresso" then Some 200
  else if String.eqb base "americano" then Some 250
  else if String.eqb base "latte" then Some 300
  else if String.eqb base "cappuccino" then Some 320
  else None.

(** 1.0, 1.2 and 1.4 *)
Definition sizeMultiplier (size : string) : option float :=
  if String.eqb size "small" then Some 0x1p+0%float
  else if String.eqb size "medium" then Some 0x1.3333333333333p+0%float
  else if String.eqb size "large" then Some 0x1.6666666666666p+0%float
  else None.

Definition milkPrice (milk : string) : option Z :=
  if String.eqb milk "whole" then Some 30
  else if String.eqb milk "skim" then Some 30
  else if String.eqb milk "oat" then Some 60
  else if String.eqb milk "soy" then Some 50
  else if String.eqb milk "none" then Some 0
  else None.

Definition syrupUnitPrice : Z := 40.
Definition icePrice : Z := 20.

(** The value of an integer as a float. *)
Definition of_int (z : Z) : float :=
  SF2Prim (binary_normalize prec emax z 0 false).

(** total = (basePrice + milkPrice + syrupUnitPrice * |syrups|)
            * sizeMultiplier; total += iced ? icePrice : 0 *)
Definition total (bp : Z) (sm : float) (mp : Z) (n : nat) (iced : bool)
    : float :=
  let total := (of_int (bp + mp + syrupUnitPrice * Z.of_nat n) * sm)%float in
  if iced then (total + of_int icePrice)%float else total.

End Spec.

(** ** Notions the further properties are stated with *)

(** Some character of the string is not whitespace. *)
Fixpoint has_nonspace (s : string) : bool :=
  match s with
  | String a s' => negb (Py.isspace a) || has_nonspace s'
  | EmptyString => false
  end.

Fixpoint last_char (s : string) : option ascii :=
  match s with
  | String a EmptyString => Some a
  | String _ s' => last_char s'
  | EmptyString => None
  end.

(** The string is not empty and its last character is not whitespace. *)
Definition ends_nonspace (s : string) : bool :=
  match last_char s with
  | Some a => negb (Py.isspace a)
  | None => false
  end.

Definition starts_nonspace (s : string) : bool :=
  match s with
  | String a _ => negb (Py.isspace a)
  | EmptyString => false
  end.

(** The string [needle] occurs in [hay]. *)
Definition occurs (needle hay : string) : Prop :=
  exists pre post, hay = pre +:+ needle +:+ post.

(** The parts [_generate_description] collects, in its order. *)
Definition extra_parts (milk : string) (syrups : list string) (sugar : Z)
    (iced : bool) : list string :=
  (if negb (String.eqb milk "none")
   then ["with " +:+ milk +:+ " milk"] else [])
  ++ match syrups with [] => [] | _ => ["+" +:+ Py.join ", " syrups] end
  ++ (if iced then ["(iced)"] else [])
  ++ (if 0 <? sugar then [pretty sugar +:+ " tsp sugar"] else []).

(** The selections for which [_generate_description] appends no part. *)
Definition no_extras (milk : string) (syrups : list string) (sugar : Z)
    (iced : bool) : bool :=
  String.eqb milk "none"
  && match syrups with [] => true | _ => false end
  && negb iced && negb (0 <? sugar).

(** The attributes of a builder, and the ones a call assigns. *)
Inductive attr : Type := Base | Size | Milk | Syrups | Sugar | Iced.

Definition attr_eqb (a b : attr) : bool :=
  match a, b with
  | Base, Base | Size, Size | Milk, Milk | Syrups, Syrups
  | Sugar, Sugar | Iced, Iced => true
  | _, _ => false
  end.

Definition writes (c : call) : list attr :=
  match c with
  | SetBase _ => [Base]
  | SetSize _ => [Size]
  | SetMilk _ => [Milk]
  | AddSyrup _ => [Syrups]
  | SetSugar _ => [Sugar]
  | SetIced _ => [Iced]
  | ClearExtras => [Milk; Syrups; Sugar; Iced]
  | Build => []
  end.

(** No attribute is assigned by both calls. *)
Definition independent (c1 c2 : call) : bool :=
  forallb (fun a => negb (existsb (attr_eqb a) (writes c2))) (writes c1).

(** The call assigns extras only: neither base nor size. *)
Definition extras_only (c : call) : bool :=
  forallb (fun a => existsb (attr_eqb a) [Milk; Syrups; Sugar; Iced])
    (writes c).

(** The state after a sequence of calls, exceptions caught. *)
Definition run_calls (cs : list call) (self : CoffeeOrderBuilder.t)
    : CoffeeOrderBuilder.t :=
  fold_left (fun self c => snd (run_call c self)) cs self.

(** The prices in exact decimal arithmetic: the multipliers 1.0, 1.2 and 1.4
    in tenths, and the price in roubles (a whole number, the sums being
    multiples of ten). *)
Module Exact.

Definition tenths (size : string) : option Z :=
  if String.eqb size "small" then Some 10
  else if String.eqb size "medium" then Some 12
  else if String.eqb size "large" then Some 14
  else None.

Definition price (bp mp k : Z) (n : nat) (iced : bool) : Z :=
  (bp + mp + 40 * Z.of_nat n) * k / 10 + (if iced then 20 else 0).

End Exact.

(** Unfolds a method down to its tests. *)
Ltac method :=
  unfold run_call, set_base, set_size, set_milk, add_syrup, set_sugar,
    set_iced, clear_extras, build, bind, when, raise, ret, read, assign, lift;
  simpl.

(** Splits on the tests of the setters, those on the argument first. *)
Ltac split_tests :=
  repeat match goal with
         | |- context [Py.contains ?d ?k] => destruct (Py.contains d k)
         | |- context [(0 <=? ?n) && (?n <=? 5)] =>
             destruct ((0 <=? n) && (n <=? 5))
         end;
  cbn [snd base size milk syrups sugar iced];
  repeat match goal with
         | |- context [4 <=? ?n] => destruct (4 <=? n)
         end;
  cbn [snd base size milk syrups sugar iced].

(** * Properties *)

(** ** Dictionaries and the catalog *)

Lemma contains_keys {V} (d : Py.dict V) (k : string) :
  Py.contains d k = true -> In k (Py.keys d).
Proof.
  unfold Py.contains.
  induction d as [|[k' v] d IH]; simpl; [discriminate|].
  destruct (String.eqb k k') eqn:E.
  - apply String.eqb_eq in E. auto.
  - auto.
Qed.

Lemma keys_contains {V} (d : Py.dict V) (k : string) :
  In k (Py.keys d) -> Py.contains d k = true.
Proof.
  unfold Py.contains.
  induction d as [|[k' v] d IH]; simpl; [tauto|].
  intros [->|H].
  - now rewrite String.eqb_refl.
  - destruct (String.eqb k k'); auto.
Qed.

Lemma getitem_contains {V} (d : Py.dict V) (k : string) :
  Py.contains d k = true -> exists v, Py.getitem d k = Ok v.
Proof.
  unfold Py.contains, Py.getitem.
  destruct (Py.get d k); [eauto|discriminate].
Qed.

(** The multipliers written in hexadecimal are the binary64 values nearest to
    the decimal literals 1.0, 1.2 and 1.4 of the source: each is [m * 2^-52]
    with [|10 * m - d * 2^52| <= 5], half a unit in the last place. *)
Lemma SIZE_MULTIPLIERS_literals :
  Forall2 (fun kv d =>
             exists m, Prim2SF (snd kv) = S754_finite false m (-52)
                       /\ Z.abs (10 * Z.pos m - d * 2 ^ 52) <= 5)
          SIZE_MULTIPLIERS [10; 12; 14].
Proof.
  repeat constructor; eexists; (split; [vm_compute; reflexivity|]);
    vm_compute; discriminate.
Qed.

(** The catalog of the specification is the catalog of the code. *)
Lemma catalog_base (base : string) :
  Spec.basePrice base = Py.get BASE_PRICES base.
Proof. reflexivity. Qed.

Lemma catalog_size (size : string) :
  Spec.sizeMultiplier size = Py.get SIZE_MULTIPLIERS size.
Proof. reflexivity. Qed.

Lemma catalog_milk (milk : string) :
  Spec.milkPrice milk = Py.get MILK_PRICES milk.
Proof. reflexivity. Qed.

(** ** What each method does *)

Lemma set_base_eq (b : string) self :
  set_base b self =
  if Py.contains BASE_PRICES b
  then (Ok tt, {| base := Some b; size := size self; milk := milk self;
                  syrups := syrups self; sugar := sugar self;
                  iced := iced self |})
  else (Raise (ValueError
          "Base must be one of: espresso, americano, latte, cappuccino"),
        self).
Proof. method. now destruct (Py.contains BASE_PRICES b). Qed.

Lemma set_size_eq (s : string) self :
  set_size s self =
  if Py.contains SIZE_MULTIPLIERS s
  then (Ok tt, {| base := base self; size := Some s; milk := milk self;
                  syrups := syrups self; sugar := sugar self;
                  iced := iced self |})
  else (Raise (ValueError "Size must be one of: small, medium, large"), self).
Proof. method. now destruct (Py.contains SIZE_MULTIPLIERS s). Qed.

Lemma set_milk_eq (m : string) self :
  set_milk m self =
  if Py.contains MILK_PRICES m
  then (Ok tt, {| base := base self; size := size self; milk := m;
                  syrups := syrups self; sugar := sugar self;
                  iced := iced self |})
  else (Raise (ValueError "Milk must be one of: whole, skim, oat, soy, none"),
        self).
Proof. method. now destruct (Py.contains MILK_PRICES m). Qed.

Lemma add_syrup_eq (name : string) self :
  add_syrup name self =
  if 4 <=? Z.of_nat (stdpp.base.size (syrups self))
  then (Raise (ValueError "Maximum 4 syrups allowed"), self)
  else (Ok tt, {| base := base self; size := size self; milk := milk self;
                  syrups := {[ name ]} ∪ syrups self; sugar := sugar self;
                  iced := iced self |}).
Proof.
  method. unfold MAX_SYRUPS.
  now destruct (4 <=? Z.of_nat (stdpp.base.size (syrups self))).
Qed.

Lemma set_sugar_eq (n : Z) self :
  set_sugar n self =
  if (0 <=? n) && (n <=? 5)
  then (Ok tt, {| base := base self; size := size self; milk := milk self;
                  syrups := syrups self; sugar := n; iced := iced self |})
  else (Raise (ValueError "Sugar must be between 0 and 5"), self).
Proof.
  method. unfold MAX_SUGAR. now destruct ((0 <=? n) && (n <=? 5)).
Qed.

Lemma clear_extras_eq self :
  clear_extras self =
  (Ok tt, {| base := base self; size := size self; milk := "none";
             syrups := ∅; sugar := 0; iced := false |}).
Proof. reflexivity. Qed.

Lemma build_eq self :
  build self =
  (match base self with
   | None => Raise (ValueError "Base is required")
   | Some b =>
       match size self with
       | None => Raise (ValueError "Size is required")
       | Some s =>
           CoffeeOrder.__init__ b s (milk self) (elements (syrups self))
             (sugar self) (iced self) (Some pricing)
       end
   end, self).
Proof. method. destruct (base self), (size self); reflexivity. Qed.

(** ** The price of a valid selection *)

Lemma base_cases (b : string) :
  Py.contains BASE_PRICES b = true ->
  b = "espresso" \/ b = "americano" \/ b = "latte" \/ b = "cappuccino".
Proof. intros H. apply contains_keys in H. simpl in H. intuition. Qed.

Lemma size_cases (s : string) :
  Py.contains SIZE_MULTIPLIERS s = true ->
  s = "small" \/ s = "medium" \/ s = "large".
Proof. intros H. apply contains_keys in H. simpl in H. intuition. Qed.

Lemma milk_cases (m : string) :
  Py.contains MILK_PRICES m = true ->
  m = "whole" \/ m = "skim" \/ m = "oat" \/ m = "soy" \/ m = "none".
Proof. intros H. apply contains_keys in H. simpl in H. intuition. Qed.

(** Splits a valid selection into its 4 * 3 * 5 * 5 cases; the price reads
    only the length of [syrups]. *)
Ltac selection Hb Hs Hm Hl l :=
  apply base_cases in Hb; apply size_cases in Hs; apply milk_cases in Hm;
  destruct l as [|? [|? [|? [|? [|? ?]]]]]; [ | | | | |simpl in Hl; lia];
  clear Hl;
  repeat match goal with H : _ \/ _ |- _ => destruct H end;
  subst.

(** The price of the code is the total of the specification, and the code
    raises nothing on the way. *)
Lemma calculate_price_total (b s m : string) (l : list string) (i : bool) :
  Py.contains BASE_PRICES b = true ->
  Py.contains SIZE_MULTIPLIERS s = true ->
  Py.contains MILK_PRICES m = true ->
  (length l <= 4)%nat ->
  exists bp sm mp,
    Spec.basePrice b = Some bp /\ Spec.sizeMultiplier s = Some sm /\
    Spec.milkPrice m = Some mp /\
    CoffeeOrder._calculate_price b s m l i (Some pricing)
    = Ok (Spec.total bp sm mp (length l) i).
Proof.
  intros Hb Hs Hm Hl.
  selection Hb Hs Hm Hl l; destruct i;
    do 3 eexists;
    (split; [reflexivity|split; [reflexivity|split; [reflexivity|]]]);
    vm_compute; reflexivity.
Qed.

(** ** The states a builder reaches *)

Lemma bind_ret_eq {A B} (m : M A) (f : A -> B) self :
  bind m (fun a => ret (f a)) self =
  (match fst (m self) with Ok a => Ok (f a) | Raise e => Raise e end,
   snd (m self)).
Proof. unfold bind, ret. now destruct (m self) as [[a|e] self']. Qed.

Lemma run_call_state (c : call) self :
  snd (run_call c self) =
  match c with
  | SetBase b => snd (set_base b self)
  | SetSize s => snd (set_size s self)
  | SetMilk m => snd (set_milk m self)
  | AddSyrup name => snd (add_syrup name self)
  | SetSugar n => snd (set_sugar n self)
  | SetIced i => snd (set_iced i self)
  | ClearExtras => snd (clear_extras self)
  | Build => self
  end.
Proof.
  destruct c; unfold run_call; rewrite bind_ret_eq; try reflexivity.
  now rewrite build_eq.
Qed.

Lemma size_add (name : string) (X : gset string) :
  (stdpp.base.size ({[ name ]} ∪ X) <= 1 + stdpp.base.size X)%nat.
Proof.
  rewrite size_union_alt, size_singleton.
  apply Nat.add_le_mono_l, subseteq_size.
  now apply subseteq_difference_l.
Qed.

Lemma valid_spec self :
  valid self = true <->
  (forall b, base self = Some b -> Py.contains BASE_PRICES b = true) /\
  (forall s, size self = Some s -> Py.contains SIZE_MULTIPLIERS s = true) /\
  Py.contains MILK_PRICES (milk self) = true /\
  (stdpp.base.size (syrups self) <= 4)%nat /\
  0 <= sugar self <= 5.
Proof.
  unfold valid, MAX_SYRUPS, MAX_SUGAR.
  rewrite !andb_true_iff, !Z.leb_le.
  destruct (base self), (size self); split; intros H;
    repeat split; try (intros ? [= <-]); try discriminate;
    try tauto; try lia; intuition.
Qed.

Lemma valid_call (c : call) self :
  valid self = true -> valid (snd (run_call c self)) = true.
Proof.
  intros H. rewrite run_call_state.
  destruct c as [b|s|m|name|teaspoons|i| |].
  - rewrite set_base_eq. destruct (Py.contains BASE_PRICES b) eqn:E; auto.
    apply valid_spec in H. apply valid_spec. simpl.
    repeat split; try tauto. now intros ? [= <-].
  - rewrite set_size_eq.
    destruct (Py.contains SIZE_MULTIPLIERS s) eqn:E; auto.
    apply valid_spec in H. apply valid_spec. simpl.
    repeat split; try tauto. now intros ? [= <-].
  - rewrite set_milk_eq. destruct (Py.contains MILK_PRICES m) eqn:E; auto.
    apply valid_spec in H. apply valid_spec. simpl. tauto.
  - rewrite add_syrup_eq.
    destruct (4 <=? Z.of_nat (stdpp.base.size (syrups self))) eqn:E; auto.
    apply Z.leb_gt in E.
    apply valid_spec in H. apply valid_spec. simpl.
    repeat split; try tauto. pose proof (size_add name (syrups self)). lia.
  - rewrite set_sugar_eq.
    destruct ((0 <=? teaspoons) && (teaspoons <=? 5)) eqn:E; auto.
    apply andb_true_iff in E. rewrite !Z.leb_le in E.
    apply valid_spec in H. apply valid_spec. simpl. tauto.
  - apply valid_spec in H. apply valid_spec. simpl. tauto.
  - rewrite clear_extras_eq.
    apply valid_spec in H. apply valid_spec. simpl.
    repeat split; try tauto; try lia. exact (Nat.le_0_l 4).
  - exact H.
Qed.

Lemma reachable_valid self : reachable self -> valid self = true.
Proof.
  induction 1 as [|c self _ IH]; [reflexivity|]. now apply valid_call.
Qed.

(** A reachable builder with base and size set builds an order, at the
    price of the specification. *)
Lemma build_valid self (b s : string) :
  valid self = true -> base self = Some b -> size self = Some s ->
  exists bp sm mp,
    Spec.basePrice b = Some bp /\ Spec.sizeMultiplier s = Some sm /\
    Spec.milkPrice (milk self) = Some mp /\
    build self =
    (Ok {| CoffeeOrder.base := b; CoffeeOrder.size := s;
           CoffeeOrder.milk := milk self;
           CoffeeOrder.syrups := elements (syrups self);
           CoffeeOrder.sugar := sugar self;
           CoffeeOrder.iced := iced self;
           CoffeeOrder.price :=
             Spec.total bp sm mp (stdpp.base.size (syrups self)) (iced self);
           CoffeeOrder.description :=
             CoffeeOrder._generate_description b s (milk self)
               (elements (syrups self)) (sugar self) (iced self) |},
     self).
Proof.
  intros H Hb Hs. apply valid_spec in H as (Vb & Vs & Vm & Vn & _).
  destruct (calculate_price_total b s (milk self) (elements (syrups self))
              (iced self) (Vb _ Hb) (Vs _ Hs) Vm Vn)
    as (bp & sm & mp & E1 & E2 & E3 & E).
  exists bp, sm, mp. repeat split; auto.
  rewrite build_eq, Hb, Hs. unfold CoffeeOrder.__init__. rewrite E.
  reflexivity.
Qed.

Lemma reachable_from self (cs : list call) :
  reachable self ->
  reachable (fold_left (fun self c => snd (run_call c self)) cs self).
Proof.
  revert self. induction cs as [|c cs IH]; intros self H; simpl; auto.
  apply IH. now constructor.
Qed.

Lemma reachable_after (cs : list call) : reachable (after cs).
Proof. apply reachable_from. constructor. Qed.

(** ** Syrups *)

(** At four syrups [add_syrup] raises whatever the name. *)
Lemma add_syrup_at_limit (name : string) self :
  stdpp.base.size (syrups self) = 4%nat ->
  add_syrup name self = (Raise (ValueError "Maximum 4 syrups allowed"), self).
Proof. intros H. rewrite add_syrup_eq, H. reflexivity. Qed.

(** C1 (evaluation of the code where the claim fails): the builder holds
    the four syrups a, b, c and d; adding "a" again, a name already in the
    set, raises the ValueError of the limit instead of returning the
    builder, and leaves the set as it was. *)
Theorem add_syrup_present_at_limit_raises :
  "a" ∈ syrups four_syrups /\
  stdpp.base.size (syrups four_syrups) = 4%nat /\
  add_syrup "a" four_syrups
  = (Raise (ValueError "Maximum 4 syrups allowed"), four_syrups).
Proof.
  split; [|split].
  - apply (bool_decide_unpack _). vm_compute. exact I.
  - vm_compute. reflexivity.
  - apply add_syrup_at_limit. vm_compute. reflexivity.
Qed.

(** ** Prices *)

(** C2 (the claim fails): the price of the latte of the example does not
    compare equal to 512.0. *)
Theorem latte_example_price_not_512 :
  ~ (exists order,
       fst (latte_example __init__) = Ok order /\
       PrimFloat.eqb (CoffeeOrder.price order) 512 = true).
Proof.
  intros (order & H & P). vm_compute in H. injection H as <-.
  vm_compute in P. discriminate.
Qed.

(** C2 (amended): a latte, medium, with oat milk, vanilla syrup, 2 spoons of
    sugar and ice costs (300+60+40)*1.2+20, which is 500.0, and its text
    contains "medium latte", "oat", "vanilla" and "(iced)". *)
Theorem latte_example_price_and_text :
  exists order self,
    latte_example __init__ = (Ok order, self) /\
    syrups self = {[ "vanilla" ]} /\
    CoffeeOrder.price order = 500%float /\
    (Spec.of_int (300 + 60 + 40) * 0x1.3333333333333p+0
     + Spec.of_int 20)%float = 500%float /\
    Py.str_in "medium latte" (CoffeeOrder.__str__ order) = true /\
    Py.str_in "oat" (CoffeeOrder.__str__ order) = true /\
    Py.str_in "vanilla" (CoffeeOrder.__str__ order) = true /\
    Py.str_in "(iced)" (CoffeeOrder.__str__ order) = true.
Proof.
  do 2 eexists. split; [vm_compute; reflexivity|].
  split; [|repeat split; vm_compute; reflexivity].
  apply (bool_decide_unpack _). vm_compute. exact I.
Qed.

(** C3: the price of every order a builder produces is
    (basePrice + milkPrice + 40 * |syrups|) * sizeMultiplier, plus 20 when
    iced, with the catalog of the specification; the sugar set before
    building does not change it. *)
Theorem build_price_formula self (order : CoffeeOrder.t) :
  reachable self ->
  fst (build self) = Ok order ->
  (exists bp sm mp,
     Spec.basePrice (CoffeeOrder.base order) = Some bp /\
     Spec.sizeMultiplier (CoffeeOrder.size order) = Some sm /\
     Spec.milkPrice (CoffeeOrder.milk order) = Some mp /\
     CoffeeOrder.price order
     = Spec.total bp sm mp (length (CoffeeOrder.syrups order))
         (CoffeeOrder.iced order)) /\
  (forall (teaspoons : Z) (order' : CoffeeOrder.t),
     fst ((set_sugar teaspoons ;; build) self) = Ok order' ->
     CoffeeOrder.price order' = CoffeeOrder.price order).
Proof.
  intros R H. apply reachable_valid in R.
  assert (exists b s, base self = Some b /\ size self = Some s)
    as (b & s & Hb & Hs).
  { rewrite build_eq in H. simpl in H.
    destruct (base self); [|discriminate].
    destruct (size self); [|discriminate]. eauto. }
  destruct (build_valid self b s R Hb Hs) as (bp & sm & mp & E1 & E2 & E3 & E).
  rewrite E in H. injection H as <-. simpl. split.
  - exists bp, sm, mp. auto.
  - intros n order' H'. unfold bind in H'. rewrite set_sugar_eq in H'.
    destruct ((0 <=? n) && (n <=? 5)) eqn:En; [|discriminate].
    pose proof (valid_call (SetSugar n) self R) as V.
    rewrite run_call_state, set_sugar_eq, En in V. simpl in V.
    destruct (build_valid _ b s V Hb Hs)
      as (bp' & sm' & mp' & E1' & E2' & E3' & E').
    rewrite E' in H'. injection H' as <-. simpl in *. congruence.
Qed.

(** C3 at the builder with base latte, size medium and milk oat. *)
Lemma build_price_formula_witness :
  let self := after [SetBase "latte"; SetSize "medium"; SetMilk "oat"] in
  let order :=
    {| CoffeeOrder.base := "latte"; CoffeeOrder.size := "medium";
       CoffeeOrder.milk := "oat"; CoffeeOrder.syrups := [];
       CoffeeOrder.sugar := 0; CoffeeOrder.iced := false;
       CoffeeOrder.price := 432%float; CoffeeOrder.description :=
         "medium latte with oat milk" |} in
  fst (build self) = Ok order /\
  ((exists bp sm mp,
     Spec.basePrice (CoffeeOrder.base order) = Some bp /\
     Spec.sizeMultiplier (CoffeeOrder.size order) = Some sm /\
     Spec.milkPrice (CoffeeOrder.milk order) = Some mp /\
     CoffeeOrder.price order
     = Spec.total bp sm mp (length (CoffeeOrder.syrups order))
         (CoffeeOrder.iced order)) /\
  (forall (teaspoons : Z) (order' : CoffeeOrder.t),
     fst ((set_sugar teaspoons ;; build) self) = Ok order' ->
     CoffeeOrder.price order' = CoffeeOrder.price order)).
Proof.
  intros self order.
  split; [vm_compute; reflexivity|].
  apply (build_price_formula self order).
  - apply reachable_after.
  - vm_compute. reflexivity.
Defined.

(** Both prices of a valid selection, without and with ice. *)
Lemma selection_prices (b s m : string) (l : list string) :
  Py.contains BASE_PRICES b = true ->
  Py.contains SIZE_MULTIPLIERS s = true ->
  Py.contains MILK_PRICES m = true ->
  (length l <= 4)%nat ->
  exists p0 p1,
    CoffeeOrder._calculate_price b s m l false (Some pricing) = Ok p0 /\
    CoffeeOrder._calculate_price b s m l true (Some pricing) = Ok p1 /\
    PrimFloat.ltb 0 p0 = true /\ PrimFloat.ltb 0 p1 = true /\
    PrimFloat.ltb p0 p1 = true.
Proof.
  intros Hb Hs Hm Hl.
  selection Hb Hs Hm Hl l;
    match goal with
    | |- exists p0 p1, ?c0 = _ /\ ?c1 = _ /\ _ =>
        let r0 := eval vm_compute in c0 in
        let r1 := eval vm_compute in c1 in
        match r0 with
        | Ok ?x0 => match r1 with Ok ?x1 => exists x0, x1 end
        end
    end;
    repeat split; vm_compute; reflexivity.
Qed.

(** C4: for a recognized base, size and milk, at most four distinct syrups
    and a sugar count from 0 to 5, the order is created with a price above
    zero whether iced or not, and the iced price is strictly the greater. *)
Theorem price_positive_and_iced_dearer
    (b s m : string) (l : list string) (n : Z) :
  In b (Py.keys BASE_PRICES) ->
  In s (Py.keys SIZE_MULTIPLIERS) ->
  In m (Py.keys MILK_PRICES) ->
  NoDup l -> (length l <= 4)%nat ->
  0 <= n <= 5 ->
  exists plain cold,
    CoffeeOrder.__init__ b s m l n false (Some pricing) = Ok plain /\
    CoffeeOrder.__init__ b s m l n true (Some pricing) = Ok cold /\
    PrimFloat.ltb 0 (CoffeeOrder.price plain) = true /\
    PrimFloat.ltb 0 (CoffeeOrder.price cold) = true /\
    PrimFloat.ltb (CoffeeOrder.price plain) (CoffeeOrder.price cold) = true.
Proof.
  intros Hb Hs Hm _ Hl _.
  apply keys_contains in Hb, Hs, Hm.
  destruct (selection_prices b s m l Hb Hs Hm Hl)
    as (p0 & p1 & E0 & E1 & L0 & L1 & L).
  unfold CoffeeOrder.__init__. rewrite E0, E1. simpl.
  do 2 eexists. repeat split; assumption.
Qed.

(** C4 at a large cappuccino with oat milk, four syrups and 5 spoons. *)
Lemma price_positive_and_iced_dearer_witness :
  exists plain cold,
    CoffeeOrder.__init__ "cappuccino" "large" "oat"
      ["vanilla"; "caramel"; "mint"; "nut"] 5 false (Some pricing)
    = Ok plain /\
    CoffeeOrder.__init__ "cappuccino" "large" "oat"
      ["vanilla"; "caramel"; "mint"; "nut"] 5 true (Some pricing)
    = Ok cold /\
    PrimFloat.ltb 0 (CoffeeOrder.price plain) = true /\
    PrimFloat.ltb 0 (CoffeeOrder.price cold) = true /\
    PrimFloat.ltb (CoffeeOrder.price plain) (CoffeeOrder.price cold) = true.
Proof.
  apply (price_positive_and_iced_dearer "cappuccino" "large" "oat"
           ["vanilla"; "caramel"; "mint"; "nut"] 5).
  - simpl. tauto.
  - simpl. tauto.
  - simpl. tauto.
  - apply (bool_decide_unpack _). vm_compute. exact I.
  - simpl. lia.
  - lia.
Defined.

(** Without milk, syrups and ice the total is the base price times the
    multiplier. *)
Lemma total_plain (bp : Z) (sm : float) :
  Spec.total bp sm 0 0 false = (Spec.of_int bp * sm)%float.
Proof.
  unfold Spec.total, Spec.syrupUnitPrice.
  now replace (bp + 0 + 40 * Z.of_nat 0) with bp by lia.
Qed.

(** ** build *)

(** C5: on a builder reached through its interface, [build] raises the
    missing-field ValueError exactly when base or size is unset, and raises
    nothing else; with both set it returns an order whose fields are the
    builder's attributes, whose syrups are the elements of the set, and whose
    price and description are computed from them and the catalog; the
    builder is left as it was. *)
Theorem build_missing_field self :
  reachable self ->
  ((exists e, fst (build self) = Raise e /\ MissingField e)
   <-> base self = None \/ size self = None) /\
  (forall e, fst (build self) = Raise e -> MissingField e) /\
  (forall b s, base self = Some b -> size self = Some s ->
     exists p,
       CoffeeOrder._calculate_price b s (milk self) (elements (syrups self))
         (iced self) (Some pricing) = Ok p /\
       build self =
       (Ok {| CoffeeOrder.base := b; CoffeeOrder.size := s;
              CoffeeOrder.milk := milk self;
              CoffeeOrder.syrups := elements (syrups self);
              CoffeeOrder.sugar := sugar self;
              CoffeeOrder.iced := iced self;
              CoffeeOrder.price := p;
              CoffeeOrder.description :=
                CoffeeOrder._generate_description b s (milk self)
                  (elements (syrups self)) (sugar self) (iced self) |},
        self)).
Proof.
  intros R. apply reachable_valid in R.
  assert (Both : forall b s, base self = Some b -> size self = Some s ->
            exists p,
              CoffeeOrder._calculate_price b s (milk self)
                (elements (syrups self)) (iced self) (Some pricing) = Ok p).
  { intros b s Hb Hs. apply valid_spec in R as (Vb & Vs & Vm & Vn & _).
    destruct (calculate_price_total b s (milk self) (elements (syrups self))
                (iced self) (Vb _ Hb) (Vs _ Hs) Vm Vn)
      as (bp & sm & mp & _ & _ & _ & E).
    eauto. }
  unfold MissingField. rewrite build_eq. simpl.
  destruct (base self) as [b|] eqn:Hb; [destruct (size self) as [s|] eqn:Hs|].
  - destruct (Both b s eq_refl eq_refl) as [p E].
    unfold CoffeeOrder.__init__. rewrite E. simpl.
    split; [split|split].
    + intros (e & H & _). discriminate.
    + intros [H|H]; discriminate.
    + intros e H. discriminate.
    + intros b' s' [= <-] [= <-]. exists p. split; [exact E|reflexivity].
  - split; [split|split].
    + auto.
    + intros _. eexists. split; [reflexivity|]. auto.
    + intros e [= <-]. auto.
    + intros b' s' _ H. discriminate.
  - split; [split|split].
    + auto.
    + intros _. eexists. split; [reflexivity|]. auto.
    + intros e [= <-]. auto.
    + intros b' s' H. discriminate.
Qed.

(** C5 at a builder with only the size set. *)
Lemma build_missing_field_witness :
  let self := after [SetSize "small"] in
  fst (build self) = Raise (ValueError "Base is required") /\
  ((exists e, fst (build self) = Raise e /\ MissingField e)
   <-> base self = None \/ size self = None).
Proof.
  intros self. split; [vm_compute; reflexivity|].
  apply (build_missing_field self). apply reachable_after.
Defined.

(** C6: [clear_extras] raises nothing, sets milk to "none", empties the
    syrups, sets sugar to 0 and iced to false, and keeps base and size; an
    order built right after it, on a builder with base and size set, costs
    the base price times the size multiplier. *)
Theorem clear_extras_resets self :
  clear_extras self =
  (Ok tt, {| base := base self; size := size self; milk := "none";
             syrups := ∅; sugar := 0; iced := false |}) /\
  (reachable self ->
   forall b s, base self = Some b -> size self = Some s ->
     exists order bp sm,
       fst ((clear_extras ;; build) self) = Ok order /\
       Spec.basePrice b = Some bp /\ Spec.sizeMultiplier s = Some sm /\
       CoffeeOrder.price order = (Spec.of_int bp * sm)%float).
Proof.
  split; [reflexivity|].
  intros R b s Hb Hs.
  pose proof (valid_call ClearExtras self (reachable_valid _ R)) as V.
  rewrite run_call_state, clear_extras_eq in V. simpl in V.
  destruct (build_valid _ b s V Hb Hs) as (bp & sm & mp & E1 & E2 & E3 & E).
  simpl in E3. injection E3 as <-.
  unfold bind. rewrite clear_extras_eq, E. simpl.
  eexists _, bp, sm.
  split; [reflexivity|]. split; [exact E1|]. split; [exact E2|].
  exact (total_plain bp sm).
Qed.

(** C6 at an iced medium latte with oat milk and vanilla syrup. *)
Lemma clear_extras_resets_witness :
  let self := after [SetBase "latte"; SetSize "medium"; SetMilk "oat";
                     AddSyrup "vanilla"; SetSugar 2; SetIced true] in
  exists order bp sm,
    fst ((clear_extras ;; build) self) = Ok order /\
    Spec.basePrice "latte" = Some bp /\
    Spec.sizeMultiplier "medium" = Some sm /\
    CoffeeOrder.price order = (Spec.of_int bp * sm)%float.
Proof.
  intros self.
  apply (proj2 (clear_extras_resets self)).
  - apply reachable_after.
  - vm_compute. reflexivity.
  - vm_compute. reflexivity.
Defined.

(** ** Failing calls *)

(** C7: a call that raises leaves every attribute of the builder as it
    was. *)
Theorem failed_call_changes_nothing (c : call) self (e : exn) :
  fst (run_call c self) = Raise e -> snd (run_call c self) = self.
Proof.
  rewrite run_call_state.
  destruct c as [b|s|m|name|n|i| |]; unfold run_call; rewrite bind_ret_eq.
  - rewrite set_base_eq. now destruct (Py.contains BASE_PRICES b).
  - rewrite set_size_eq. now destruct (Py.contains SIZE_MULTIPLIERS s).
  - rewrite set_milk_eq. now destruct (Py.contains MILK_PRICES m).
  - rewrite add_syrup_eq.
    now destruct (4 <=? Z.of_nat (stdpp.base.size (syrups self))).
  - rewrite set_sugar_eq. now destruct ((0 <=? n) && (n <=? 5)).
  - discriminate.
  - discriminate.
  - reflexivity.
Qed.

(** C7 at a sugar count of 6. *)
Lemma failed_call_changes_nothing_witness :
  let self := after [SetBase "latte"; SetSize "small"] in
  fst (run_call (SetSugar 6) self)
  = Raise (ValueError "Sugar must be between 0 and 5") /\
  snd (run_call (SetSugar 6) self) = self.
Proof.
  intros self. split; [vm_compute; reflexivity|].
  apply (failed_call_changes_nothing (SetSugar 6) self
           (ValueError "Sugar must be between 0 and 5")).
  vm_compute. reflexivity.
Defined.

(** C9: [add_syrup] looks at the number of syrups only: below four it adds
    any name, the empty string included; when it raises, it is the
    ValueError of the limit, with four syrups or more in the set. *)
Theorem add_syrup_any_name (name : string) self :
  ((stdpp.base.size (syrups self) < 4)%nat ->
   add_syrup name self =
   (Ok tt, {| base := base self; size := size self; milk := milk self;
              syrups := {[ name ]} ∪ syrups self; sugar := sugar self;
              iced := iced self |})) /\
  (forall e, fst (add_syrup name self) = Raise e ->
     LimitExceeded e /\ (4 <= stdpp.base.size (syrups self))%nat).
Proof.
  rewrite add_syrup_eq.
  destruct (4 <=? Z.of_nat (stdpp.base.size (syrups self))) eqn:E.
  - apply Z.leb_le in E. split; [lia|].
    intros e [= <-]. split; [reflexivity|lia].
  - split; [reflexivity|]. intros e H. discriminate.
Qed.

(** C9 at the empty name on a fresh builder. *)
Lemma add_syrup_any_name_witness :
  add_syrup "" __init__ =
  (Ok tt, {| base := None; size := None; milk := "none";
             syrups := {[ "" ]} ∪ ∅; sugar := 0; iced := false |}).
Proof.
  apply (proj1 (add_syrup_any_name "" __init__)).
  vm_compute. lia.
Defined.

(** C10: on a builder reached through its interface the three lookups of
    the price computation are defined, and [build] raises no KeyError. *)
Theorem build_lookups_defined self :
  reachable self ->
  (forall b, base self = Some b ->
     exists bp, Py.getitem BASE_PRICES b = Ok bp) /\
  (forall s, size self = Some s ->
     exists sm, Py.getitem SIZE_MULTIPLIERS s = Ok sm) /\
  (exists mp, Py.getitem MILK_PRICES (milk self) = Ok mp) /\
  (forall k, fst (build self) <> Raise (KeyError k)).
Proof.
  intros R. apply reachable_valid in R.
  pose proof R as V. apply valid_spec in V as (Vb & Vs & Vm & _).
  split; [|split; [|split]].
  - intros b Hb. apply getitem_contains; auto.
  - intros s Hs. apply getitem_contains; auto.
  - apply getitem_contains; auto.
  - intros k H. rewrite build_eq in H. simpl in H.
    destruct (base self) as [b|] eqn:Hb; [|discriminate].
    destruct (size self) as [s|] eqn:Hs; [|discriminate].
    destruct (build_valid self b s R Hb Hs) as (? & ? & ? & _ & _ & _ & E).
    rewrite build_eq, Hb, Hs in E. injection E as E. rewrite E in H.
    discriminate.
Qed.

(** C10 at the builder of an iced medium latte. *)
Lemma build_lookups_defined_witness :
  let self := after [SetBase "latte"; SetSize "medium"; SetIced true] in
  (exists mp, Py.getitem MILK_PRICES (milk self) = Ok mp) /\
  (forall k, fst (build self) <> Raise (KeyError k)).
Proof.
  intros self.
  apply (build_lookups_defined self). apply reachable_after.
Defined.

(** ** Orders are snapshots *)

Lemma stable_refl (h : Heap.t) : stable h h.
Proof. intros r [X|l|o|b] H; eauto. Qed.

Lemma stable_trans (h1 h2 h3 : Heap.t) :
  stable h1 h2 -> stable h2 h3 -> stable h1 h3.
Proof.
  intros S12 S23 r o H. specialize (S12 r o H).
  destruct o as [X|l|o|b].
  - destruct S12 as [X' H']. exact (S23 r _ H').
  - exact (S23 r _ S12).
  - exact (S23 r _ S12).
  - destruct S12 as (b' & H' & E'). destruct (S23 r _ H') as (b'' & H'' & E'').
    exists b''. split; [exact H''|congruence].
Qed.

Lemma stable_app (h new : Heap.t) : stable h (h ++ new).
Proof.
  intros r o H. apply (lookup_app_l_Some _ new) in H.
  destruct o; eauto.
Qed.

(** An object replaced by one of its kind, a builder keeping its set. *)
Lemma stable_insert (h : Heap.t) (r : ref) (o o' : object) :
  h !! r = Some o ->
  match o, o' with
  | SetObject _, SetObject _ => True
  | BuilderOf b, BuilderOf b' =>
      BuilderObject.syrups b' = BuilderObject.syrups b
  | _, _ => False
  end ->
  stable h (<[r := o']> h).
Proof.
  intros Hr K r2 o2 H2.
  destruct (decide (r = r2)) as [<-|Hne].
  - assert (L : <[r := o']> h !! r = Some o')
      by (apply list_lookup_insert_eq; now apply lookup_lt_Some in Hr).
    rewrite Hr in H2. injection H2 as <-.
    destruct o, o'; try contradiction; eauto.
  - assert (L : <[r := o']> h !! r2 = h !! r2)
      by (now apply list_lookup_insert_ne).
    destruct o2; rewrite L; eauto.
Qed.

Lemma keeps_ret {A} (a : A) : keeps (Heap.ret a).
Proof. intros h. apply stable_refl. Qed.

Lemma keeps_raise {A} (e : exn) : keeps (@Heap.raise A e).
Proof. intros h. apply stable_refl. Qed.

Lemma keeps_lift {A} (r : result A) : keeps (Heap.lift r).
Proof. intros h. apply stable_refl. Qed.

Lemma keeps_bind {A B} (m : Heap.H A) (k : A -> Heap.H B) :
  keeps m -> (forall a, keeps (k a)) -> keeps (Heap.bind m k).
Proof.
  intros Hm Hk h. unfold Heap.bind. specialize (Hm h).
  destruct (m h) as [[a|e] h']; [|exact Hm].
  eapply stable_trans; [exact Hm|apply Hk].
Qed.

Lemma keeps_when (c : bool) (m : Heap.H unit) :
  keeps m -> keeps (Heap.when c m).
Proof. destruct c; [auto|]. intros _. apply keeps_ret. Qed.

Lemma keeps_alloc (o : object) : keeps (Heap.alloc o).
Proof. intros h. apply stable_app. Qed.

Lemma keeps_attributes (self : ref) : keeps (Heap.attributes self).
Proof.
  intros h. unfold Heap.attributes.
  destruct (h !! self) as [[]|]; apply stable_refl.
Qed.

Lemma keeps_iterate (r : ref) : keeps (Heap.iterate r).
Proof.
  intros h. unfold Heap.iterate.
  destruct (h !! r) as [[]|]; apply stable_refl.
Qed.

Lemma keeps_set_add (r : ref) (name : string) : keeps (Heap.set_add r name).
Proof.
  intros h. unfold Heap.set_add.
  destruct (h !! r) as [[X|l|o|b]|] eqn:E; try apply stable_refl.
  now apply (stable_insert h r (SetObject X)).
Qed.

Lemma keeps_set_clear (r : ref) : keeps (Heap.set_clear r).
Proof.
  intros h. unfold Heap.set_clear.
  destruct (h !! r) as [[X|l|o|b]|] eqn:E; try apply stable_refl.
  now apply (stable_insert h r (SetObject X)).
Qed.

Lemma keeps_update (self : ref) (f : BuilderObject.t -> BuilderObject.t) :
  (forall b, BuilderObject.syrups (f b) = BuilderObject.syrups b) ->
  keeps (Heap.update self f).
Proof.
  intros Hf h. unfold Heap.update, Heap.bind, Heap.attributes, Heap.assign.
  destruct (h !! self) as [[X|l|o|b]|] eqn:E; try apply stable_refl.
  simpl. apply (stable_insert h self (BuilderOf b)); [exact E|apply Hf].
Qed.

Lemma keeps_syrups_of (self : ref) : keeps (Heap.syrups_of self).
Proof.
  apply keeps_bind; [apply keeps_attributes|]. intros b. apply keeps_ret.
Qed.

Create HintDb keeps.
#[local] Hint Resolve keeps_ret keeps_raise keeps_lift keeps_when
  keeps_alloc keeps_attributes keeps_iterate keeps_set_add keeps_set_clear
  keeps_syrups_of : keeps.

Ltac keeps :=
  repeat first
    [ solve [auto with keeps]
    | apply keeps_update; intros ?; reflexivity
    | apply keeps_bind; [|intros ?]
    | match goal with
      | |- keeps (match ?x with _ => _ end) => destruct x
      end ].

(** No call changes a tuple, an order, or the set a builder refers to. *)
Lemma call_method_stable (self : ref) (c : call) :
  keeps (Heap.call_method self c).
Proof.
  destruct c; unfold Heap.call_method, Heap.set_base, Heap.set_size,
    Heap.set_milk, Heap.add_syrup, Heap.set_sugar, Heap.set_iced,
    Heap.clear_extras, Heap.build, Heap.tuple, Heap.new_order, Heap.len;
    keeps.
Qed.

Lemma run_stable (cs : list (ref * call)) (h : Heap.t) :
  stable h (Heap.run cs h).
Proof.
  revert h. induction cs as [|[self c] cs IH]; intros h.
  - apply stable_refl.
  - eapply stable_trans; [apply (call_method_stable self c)|apply IH].
Qed.

(** What a successful [build] does to the heap: a new tuple with the items
    of the builder's syrups, then the order that refers to it. *)
Lemma build_ok (self order : ref) (h h' : Heap.t) :
  Heap.build self h = (Ok order, h') ->
  exists b bs sz items p,
    h !! self = Some (BuilderOf b) /\
    BuilderObject.base b = Some bs /\ BuilderObject.size b = Some sz /\
    fst (Heap.iterate (BuilderObject.syrups b) h) = Ok items /\
    CoffeeOrder._calculate_price bs sz (BuilderObject.milk b) items
      (BuilderObject.iced b) (Some pricing) = Ok p /\
    order = S (length h) /\
    h' = h ++ [TupleObject items;
               OrderOf
                 {| OrderObject.base := bs; OrderObject.size := sz;
                    OrderObject.milk := BuilderObject.milk b;
                    OrderObject.syrups := length h;
                    OrderObject.sugar := BuilderObject.sugar b;
                    OrderObject.iced := BuilderObject.iced b;
                    OrderObject.price := p;
                    OrderObject.description :=
                      CoffeeOrder._generate_description bs sz
                        (BuilderObject.milk b) items (BuilderObject.sugar b)
                        (BuilderObject.iced b) |}].
Proof.
  unfold Heap.build, Heap.bind, Heap.attributes.
  destruct (h !! self) as [[X|l|o|b]|] eqn:Hs; try discriminate.
  destruct (BuilderObject.base b) as [bs|] eqn:Hb; [|discriminate].
  destruct (BuilderObject.size b) as [sz|] eqn:Hz; [|discriminate].
  unfold Heap.tuple, Heap.bind.
  destruct (Heap.iterate (BuilderObject.syrups b) h) as [[items|e] h1] eqn:Hi;
    [|discriminate].
  assert (h1 = h) as ->.
  { unfold Heap.iterate in Hi.
    destruct (h !! BuilderObject.syrups b) as [[]|]; now injection Hi. }
  unfold Heap.alloc, Heap.new_order, Heap.bind, Heap.iterate, Heap.lift.
  cbv beta iota. rewrite lookup_app_r, Nat.sub_diag by lia.
  change ([TupleObject items] !! 0%nat) with (Some (TupleObject items)).
  cbv beta iota.
  destruct (CoffeeOrder._calculate_price bs sz (BuilderObject.milk b) items
              (BuilderObject.iced b) (Some pricing)) as [p|e] eqn:Hp;
    [|intros [=]].
  intros [= <- <-]. exists b, bs, sz, items, p.
  rewrite length_app, <- app_assoc.
  split; [reflexivity|]. split; [exact Hb|]. split; [exact Hz|].
  split; [exact (f_equal fst Hi)|]. split; [exact Hp|].
  split; [simpl; lia|reflexivity].
Qed.

Lemma read_new_order (h : Heap.t) (items : list string) (o : OrderObject.t) :
  OrderObject.syrups o = length h ->
  Heap.read_order (h ++ [TupleObject items; OrderOf o]) (S (length h))
  = Some {| CoffeeOrder.base := OrderObject.base o;
            CoffeeOrder.size := OrderObject.size o;
            CoffeeOrder.milk := OrderObject.milk o;
            CoffeeOrder.syrups := items;
            CoffeeOrder.sugar := OrderObject.sugar o;
            CoffeeOrder.iced := OrderObject.iced o;
            CoffeeOrder.price := OrderObject.price o;
            CoffeeOrder.description := OrderObject.description o |}.
Proof.
  intros E. unfold Heap.read_order, Heap.iterate.
  rewrite lookup_app_r by lia.
  replace (S (length h) - length h)%nat with 1%nat by lia. simpl.
  rewrite E, lookup_app_r, Nat.sub_diag by lia. reflexivity.
Qed.

(** Reading an order gives the same in every later heap, whatever it refers
    to, as long as that is a tuple. *)
Lemma read_order_stable (h h' : Heap.t) (order : ref) (o : OrderObject.t)
    (items : list string) :
  stable h h' ->
  h !! order = Some (OrderOf o) ->
  h !! OrderObject.syrups o = Some (TupleObject items) ->
  h' !! order = Some (OrderOf o) /\
  h' !! OrderObject.syrups o = Some (TupleObject items) /\
  Heap.read_order h' order = Heap.read_order h order.
Proof.
  intros S Ho Ht. pose proof (S _ _ Ho) as Ho'. pose proof (S _ _ Ht) as Ht'.
  simpl in Ho', Ht'. repeat split; auto.
  unfold Heap.read_order, Heap.iterate. now rewrite Ho, Ho', Ht, Ht'.
Qed.

Lemma read_builder_stable_app (h new : Heap.t) (self : ref)
    (b : CoffeeOrderBuilder.t) :
  Heap.read_builder h self = Some b ->
  Heap.read_builder (h ++ new) self = Some b.
Proof.
  unfold Heap.read_builder.
  destruct (h !! self) as [[X|l|o|bo]|] eqn:Hs; try discriminate.
  destruct (h !! BuilderObject.syrups bo) as [[X|l|o|bo']|] eqn:Hr;
    try discriminate.
  now rewrite (lookup_app_l_Some _ _ _ _ Hs), (lookup_app_l_Some _ _ _ _ Hr).
Qed.

(** *** The heap against the value model *)

Lemma heap_bind_ok {A B} (m : Heap.H A) (k : A -> Heap.H B) h a h' :
  m h = (Ok a, h') -> Heap.bind m k h = k a h'.
Proof. unfold Heap.bind. now intros ->. Qed.

Lemma points_read h self b X :
  points h self b X -> Heap.read_builder h self = Some (Heap.builder_value b X).
Proof. intros [Hs Hr]. unfold Heap.read_builder. now rewrite Hs, Hr. Qed.

Lemma read_points h self v :
  Heap.read_builder h self = Some v ->
  exists b X, points h self b X /\ v = Heap.builder_value b X.
Proof.
  unfold Heap.read_builder, points.
  destruct (h !! self) as [[X|l|o|b]|] eqn:Hs; try discriminate.
  destruct (h !! BuilderObject.syrups b) as [[X|l|o|b']|] eqn:Hr;
    try discriminate.
  intros [= <-]. eauto.
Qed.

Lemma points_update h self b X (f : BuilderObject.t -> BuilderObject.t) :
  points h self b X ->
  BuilderObject.syrups (f b) = BuilderObject.syrups b ->
  exists h', Heap.update self f h = (Ok tt, h') /\ points h' self (f b) X.
Proof.
  intros [Hs Hr] Hf. exists (<[self := BuilderOf (f b)]> h). split.
  - unfold Heap.update, Heap.bind, Heap.attributes, Heap.assign.
    now rewrite Hs.
  - split.
    + apply list_lookup_insert_eq. now apply lookup_lt_Some in Hs.
    + rewrite Hf, list_lookup_insert_ne; [exact Hr|].
      intros ->. congruence.
Qed.

Lemma points_set h self b X Y :
  points h self b X ->
  points (<[BuilderObject.syrups b := SetObject Y]> h) self b Y.
Proof.
  intros [Hs Hr]. split.
  - rewrite list_lookup_insert_ne; [exact Hs|]. intros E. congruence.
  - apply list_lookup_insert_eq. now apply lookup_lt_Some in Hr.
Qed.

Lemma points_syrups_of h self b X :
  points h self b X ->
  Heap.syrups_of self h = (Ok (BuilderObject.syrups b), h).
Proof.
  intros [Hs _]. unfold Heap.syrups_of, Heap.bind, Heap.attributes.
  now rewrite Hs.
Qed.

Lemma points_len h self b X :
  points h self b X ->
  Heap.len (BuilderObject.syrups b) h = (Ok (Z.of_nat (stdpp.base.size X)), h).
Proof.
  intros [_ Hr]. unfold Heap.len, Heap.bind, Heap.iterate. now rewrite Hr.
Qed.

Lemma points_app h new self b X :
  points h self b X -> points (h ++ new) self b X.
Proof. intros [Hs Hr]. split; now apply lookup_app_l_Some. Qed.

Lemma heap_bind_raise {A B} (m : Heap.H A) (k : A -> Heap.H B) h e h' :
  m h = (Raise e, h') -> Heap.bind m k h = (Raise e, h').
Proof. unfold Heap.bind. now intros ->. Qed.

(** An assignment to an attribute other than [syrups]. *)
Lemma simulates_update (self : ref)
    (f : BuilderObject.t -> BuilderObject.t)
    (g : CoffeeOrderBuilder.t -> CoffeeOrderBuilder.t) :
  (forall b, BuilderObject.syrups (f b) = BuilderObject.syrups b) ->
  (forall b X, g (Heap.builder_value b X) = Heap.builder_value (f b) X) ->
  simulates self (Heap.update self f) (assign g).
Proof.
  intros Hf Hg h b X P.
  destruct (points_update h self b X f P (Hf b)) as (h' & E & P').
  exists (Ok tt), h', (f b), X. unfold assign. rewrite Hg.
  split; [exact E|split; [exact P'|reflexivity]].
Qed.

(** A test on the argument before the assignment. *)
Lemma simulates_when (self : ref) (c : bool) (e : exn)
    (mh : Heap.H unit) (mp : M unit) :
  simulates self mh mp ->
  simulates self (Heap.bind (Heap.when c (Heap.raise e)) (fun _ => mh))
    (bind (when c (raise e)) (fun _ => mp)).
Proof.
  intros S h b X P. destruct c.
  - exists (Raise e), h, b, X.
    split; [reflexivity|split; [exact P|reflexivity]].
  - exact (S h b X P).
Qed.

Lemma simulates_bind (self : ref) (mh1 mh2 : Heap.H unit) (mp1 mp2 : M unit) :
  simulates self mh1 mp1 -> simulates self mh2 mp2 ->
  simulates self (Heap.bind mh1 (fun _ => mh2)) (bind mp1 (fun _ => mp2)).
Proof.
  intros S1 S2 h b X P.
  destruct (S1 h b X P) as (r1 & h1 & b1 & X1 & E1 & P1 & V1).
  unfold bind. rewrite V1. destruct r1 as [[]|e].
  - rewrite (heap_bind_ok _ _ _ _ _ E1). exact (S2 h1 b1 X1 P1).
  - rewrite (heap_bind_raise _ _ _ _ _ E1). exists (Raise e), h1, b1, X1.
    split; [reflexivity|split; [exact P1|reflexivity]].
Qed.

Lemma simulates_set_base (self : ref) (x : string) :
  simulates self (Heap.set_base self x) (set_base x).
Proof. apply simulates_when. now apply simulates_update. Qed.

Lemma simulates_set_size (self : ref) (x : string) :
  simulates self (Heap.set_size self x) (set_size x).
Proof. apply simulates_when. now apply simulates_update. Qed.

Lemma simulates_set_milk (self : ref) (x : string) :
  simulates self (Heap.set_milk self x) (set_milk x).
Proof. apply simulates_when. now apply simulates_update. Qed.

Lemma simulates_set_sugar (self : ref) (n : Z) :
  simulates self (Heap.set_sugar self n) (set_sugar n).
Proof. apply simulates_when. now apply simulates_update. Qed.

Lemma simulates_set_iced (self : ref) (i : bool) :
  simulates self (Heap.set_iced self i) (set_iced i).
Proof. now apply simulates_update. Qed.

Lemma simulates_add_syrup (self : ref) (x : string) :
  simulates self (Heap.add_syrup self x) (add_syrup x).
Proof.
  intros h b X P. rewrite add_syrup_eq. unfold Heap.add_syrup.
  rewrite (heap_bind_ok _ _ _ _ _ (points_syrups_of _ _ _ _ P)).
  rewrite (heap_bind_ok _ _ _ _ _ (points_len _ _ _ _ P)).
  change (CoffeeOrderBuilder.syrups (Heap.builder_value b X)) with X.
  unfold MAX_SYRUPS, Heap.when.
  destruct (4 <=? Z.of_nat (stdpp.base.size X)).
  - exists (Raise (ValueError "Maximum 4 syrups allowed")), h, b, X.
    split; [reflexivity|split; [exact P|reflexivity]].
  - rewrite (heap_bind_ok _ _ h tt h eq_refl).
    rewrite (heap_bind_ok _ _ _ _ _ (points_syrups_of _ _ _ _ P)).
    exists (Ok tt), (<[BuilderObject.syrups b := SetObject ({[ x ]} ∪ X)]> h),
      b, ({[ x ]} ∪ X).
    split; [|split; [now apply (points_set h self b X)|reflexivity]].
    unfold Heap.set_add. destruct P as [_ Hr]. now rewrite Hr.
Qed.

Lemma simulates_clear (self : ref) :
  simulates self
    (Heap.bind (Heap.syrups_of self) (fun syrups => Heap.set_clear syrups))
    (assign (fun v =>
       {| base := base v; size := size v; milk := milk v; syrups := ∅;
          sugar := sugar v; iced := iced v |})).
Proof.
  intros h b X P.
  rewrite (heap_bind_ok _ _ _ _ _ (points_syrups_of _ _ _ _ P)).
  exists (Ok tt), (<[BuilderObject.syrups b := SetObject ∅]> h), b, ∅.
  split; [|split; [now apply (points_set h self b X)|reflexivity]].
  unfold Heap.set_clear. destruct P as [_ Hr]. now rewrite Hr.
Qed.

Lemma simulates_clear_extras (self : ref) :
  simulates self (Heap.clear_extras self) clear_extras.
Proof.
  unfold Heap.clear_extras, clear_extras.
  apply simulates_bind; [now apply simulates_update|].
  apply simulates_bind; [apply simulates_clear|].
  apply simulates_bind; now apply simulates_update.
Qed.

(** [build] on the heap creates the order the value model builds. *)
Lemma build_simulates (self : ref) (h : Heap.t) (b : BuilderObject.t)
    (X : gset string) :
  points h self b X ->
  match Heap.build self h, build (Heap.builder_value b X) with
  | (Ok order, h'), (Ok value, _) =>
      Heap.read_order h' order = Some value /\ points h' self b X
  | (Raise e, h'), (Raise e', _) => e = e' /\ points h' self b X
  | _, _ => False
  end.
Proof.
  intros P. pose proof P as [Hs Hr]. rewrite build_eq.
  unfold Heap.build, Heap.bind, Heap.attributes. rewrite Hs.
  change (CoffeeOrderBuilder.base (Heap.builder_value b X))
    with (BuilderObject.base b).
  change (CoffeeOrderBuilder.size (Heap.builder_value b X))
    with (BuilderObject.size b).
  destruct (BuilderObject.base b) as [bs|]; [|now split].
  destruct (BuilderObject.size b) as [sz|]; [|now split].
  unfold Heap.tuple, Heap.bind, Heap.iterate at 1. rewrite Hr.
  unfold Heap.alloc at 1, Heap.new_order, Heap.bind, Heap.iterate, Heap.lift.
  rewrite lookup_app_r, Nat.sub_diag by lia.
  change ([TupleObject (elements X)] !! 0%nat)
    with (Some (TupleObject (elements X))).
  cbv beta iota. unfold CoffeeOrder.__init__.
  change (CoffeeOrderBuilder.milk (Heap.builder_value b X))
    with (BuilderObject.milk b).
  change (CoffeeOrderBuilder.iced (Heap.builder_value b X))
    with (BuilderObject.iced b).
  change (CoffeeOrderBuilder.syrups (Heap.builder_value b X)) with X.
  destruct (CoffeeOrder._calculate_price bs sz (BuilderObject.milk b)
              (elements X) (BuilderObject.iced b) (Some pricing)) as [p|e].
  - unfold Heap.alloc. rewrite length_app, <- app_assoc.
    replace (length h + length [TupleObject (elements X)])%nat
      with (S (length h)) by (simpl; lia).
    cbn [app]. split; [|now apply points_app].
    rewrite read_new_order; reflexivity.
  - split; [reflexivity|now apply points_app].
Qed.

(** A call on the heap does to the builder what the call of the value model
    does, with the same outcome. *)
Lemma call_method_simulates (self : ref) (c : call) (h : Heap.t)
    (v : CoffeeOrderBuilder.t) :
  Heap.read_builder h self = Some v ->
  Heap.read_builder (snd (Heap.call_method self c h)) self
  = Some (snd (run_call c v)) /\
  same_outcome (snd (Heap.call_method self c h))
    (fst (Heap.call_method self c h)) (fst (run_call c v)).
Proof.
  intros Hv. apply read_points in Hv as (b & X & P & ->).
  assert (U : forall mh mp,
             simulates self mh mp ->
             Heap.read_builder
               (snd (Heap.bind mh (fun _ => Heap.ret (@None ref)) h)) self
             = Some (snd (bind mp (fun _ => ret (@None CoffeeOrder.t))
                            (Heap.builder_value b X))) /\
             same_outcome
               (snd (Heap.bind mh (fun _ => Heap.ret (@None ref)) h))
               (fst (Heap.bind mh (fun _ => Heap.ret (@None ref)) h))
               (fst (bind mp (fun _ => ret (@None CoffeeOrder.t))
                       (Heap.builder_value b X)))).
  { intros mh mp S.
    destruct (S h b X P) as (r & h' & b' & X' & E & P' & V).
    unfold bind. rewrite V. destruct r as [[]|e].
    - rewrite (heap_bind_ok _ _ _ _ _ E).
      split; [now apply points_read|exact I].
    - rewrite (heap_bind_raise _ _ _ _ _ E).
      split; [now apply points_read|reflexivity]. }
  destruct c as [x|x|x|x|n|i| |]; unfold Heap.call_method, run_call.
  - apply U, simulates_set_base.
  - apply U, simulates_set_size.
  - apply U, simulates_set_milk.
  - apply U, simulates_add_syrup.
  - apply U, simulates_set_sugar.
  - apply U, simulates_set_iced.
  - apply U, simulates_clear_extras.
  - pose proof (build_simulates self h b X P) as B.
    unfold Heap.bind, bind.
    destruct (Heap.build self h) as [[order|e] h'],
      (build (Heap.builder_value b X)) as [[value|e'] v'] eqn:E;
      try contradiction.
    + rewrite build_eq in E. injection E as _ <-.
      destruct B as [R P']. split; [now apply points_read|exact R].
    + rewrite build_eq in E. injection E as _ <-.
      destruct B as [R P']. split; [now apply points_read|exact R].
Qed.

Lemma run_simulates (self : ref) (calls : list call) (h : Heap.t)
    (v : CoffeeOrderBuilder.t) :
  Heap.read_builder h self = Some v ->
  Heap.read_builder (Heap.run (map (pair self) calls) h) self
  = Some (run_calls calls v).
Proof.
  revert h v. induction calls as [|c calls IH]; intros h v Hv; [exact Hv|].
  apply (IH _ (snd (run_call c v))).
  now apply call_method_simulates.
Qed.

Lemma stable_length (h h' : Heap.t) :
  stable h h' -> (length h <= length h')%nat.
Proof.
  intros S. destruct (decide (length h <= length h')%nat) as [|N]; [lia|].
  destruct (lookup_lt_is_Some_2 h (length h')) as [o Ho]; [lia|].
  specialize (S _ _ Ho).
  assert (is_Some (h' !! length h')) as L.
  { destruct o; [destruct S as [? ->]| | |destruct S as (? & -> & _)];
      rewrite ?S; eauto. }
  apply lookup_lt_is_Some_1 in L. lia.
Qed.

(** C8: an order that [build] has created reads the same after any sequence
    of calls on the builder (or on any builder): the calls change the
    builder's set object in place, and the order refers to the tuple that
    [build] made of it.  The builder meanwhile accumulates the calls; a later
    [build] creates another order object, with another tuple, made of the
    builder's state at that time, and leaves the builder as it is. *)
Theorem built_orders_are_snapshots
    (h : Heap.t) (self order1 : ref) (h1 : Heap.t) (cs : list (ref * call)) :
  Heap.build self h = (Ok order1, h1) ->
  let h2 := Heap.run cs h1 in
  (exists value1,
     Heap.read_order h1 order1 = Some value1 /\
     Heap.read_order h2 order1 = Some value1 /\
     h2 !! order1 = h1 !! order1) /\
  (forall calls v,
     cs = map (pair self) calls ->
     Heap.read_builder h self = Some v ->
     Heap.read_builder h2 self = Some (run_calls calls v)) /\
  (forall order2 h3,
     Heap.build self h2 = (Ok order2, h3) ->
     order2 <> order1 /\
     Heap.read_order h3 order1 = Heap.read_order h1 order1 /\
     (exists o1 o2,
        h3 !! order1 = Some (OrderOf o1) /\
        h3 !! order2 = Some (OrderOf o2) /\
        OrderObject.syrups o1 <> OrderObject.syrups o2) /\
     (forall v2,
        Heap.read_builder h2 self = Some v2 ->
        Heap.read_builder h3 self = Some v2 /\
        exists value2,
          Heap.read_order h3 order2 = Some value2 /\
          fst (build v2) = Ok value2)).
Proof.
  intros B h2.
  pose proof (build_ok _ _ _ _ B)
    as (b & bs & sz & items & p & Hs & Hb & Hz & Hi & Hp & -> & ->).
  match type of B with
  | _ = (_, h ++ [_; OrderOf ?o]) => set (o1 := o) in *
  end.
  set (h1 := h ++ [TupleObject items; OrderOf o1]) in *.
  assert (L1 : h1 !! S (length h) = Some (OrderOf o1)).
  { unfold h1. rewrite lookup_app_r by lia.
    now replace (S (length h) - length h)%nat with 1%nat by lia. }
  assert (T1 : h1 !! OrderObject.syrups o1 = Some (TupleObject items)).
  { unfold h1, o1. cbn [OrderObject.syrups].
    now rewrite lookup_app_r, Nat.sub_diag by lia. }
  assert (S12 : stable h1 h2) by apply run_stable.
  destruct (read_order_stable h1 h2 _ _ _ S12 L1 T1) as (L2 & T2 & R2).
  assert (R1 : Heap.read_order h1 (S (length h)) <> None).
  { unfold h1. now rewrite read_new_order. }
  split; [|split].
  - destruct (Heap.read_order h1 (S (length h))) as [value1|] eqn:E;
      [|contradiction].
    exists value1. rewrite R2, L2, L1. auto.
  - intros calls v -> Hv. apply run_simulates.
    apply read_points in Hv as (b' & X & P & ->).
    now apply points_read, points_app.
  - intros order2 h3 B2.
    pose proof (build_ok _ _ _ _ B2)
      as (b2 & bs2 & sz2 & items2 & p2 & Hs2 & _ & _ & Hi2 & Hp2 & -> & ->).
    assert (Len : (length h1 <= length h2)%nat) by now apply stable_length.
    assert (Len1 : length h1 = S (S (length h)))
      by (unfold h1; rewrite length_app; simpl; lia).
    assert (S23 : stable h2 (h2 ++ [TupleObject items2;
                   OrderOf {| OrderObject.base := bs2;
                     OrderObject.size := sz2;
                     OrderObject.milk := BuilderObject.milk b2;
                     OrderObject.syrups := length h2;
                     OrderObject.sugar := BuilderObject.sugar b2;
                     OrderObject.iced := BuilderObject.iced b2;
                     OrderObject.price := p2;
                     OrderObject.description :=
                       CoffeeOrder._generate_description bs2 sz2
                         (BuilderObject.milk b2) items2
                         (BuilderObject.sugar b2) (BuilderObject.iced b2) |}]))
      by apply stable_app.
    destruct (read_order_stable _ _ _ _ _ (stable_trans _ _ _ S12 S23) L1 T1)
      as (L3 & T3 & R3).
    split; [lia|]. split; [exact R3|]. split.
    + eexists _, _. split; [exact L3|]. split.
      * rewrite lookup_app_r by lia.
        now replace (S (length h2) - length h2)%nat with 1%nat by lia.
      * unfold o1. cbn [OrderObject.syrups]. lia.
    + intros v2 Hv2. apply read_points in Hv2 as (b' & X & P & ->).
      pose proof (build_simulates self h2 b' X P) as Sim.
      rewrite B2 in Sim.
      destruct (build (Heap.builder_value b' X)) as [[value2|e] v'] eqn:E;
        [|contradiction].
      destruct Sim as [R P']. split; [now apply points_read|].
      exists value2. split; [exact R|reflexivity].
Qed.

(** C8 on the source's own scenario: the latte is built, then the builder
    gets soy milk, no ice and caramel, is cleared, and builds again. *)
Lemma built_orders_are_snapshots_witness :
  let h1 := snd (Heap.build 1 latte_heap) in
  let cs := [(1, SetMilk "soy"); (1, SetIced false); (1, AddSyrup "caramel");
             (1, ClearExtras); (1, Build)]%nat in
  Heap.build 1 latte_heap = (Ok 3%nat, h1) /\
  Heap.read_order h1 3 = Some latte_order /\
  Heap.read_order (Heap.run cs h1) 3 = Some latte_order.
Proof.
  intros h1 cs.
  assert (B : Heap.build 1 latte_heap = (Ok 3%nat, h1))
    by (vm_compute; reflexivity).
  assert (R : Heap.read_order h1 3 = Some latte_order)
    by (vm_compute; reflexivity).
  split; [exact B|]. split; [exact R|].
  destruct (built_orders_are_snapshots latte_heap 1 3 h1 cs B)
    as [(value1 & R1 & R2 & _) _].
  rewrite R2, <- R1. exact R.
Defined.

(** What makes the order a snapshot is [tuple(...)]: an order created on the
    builder's own set object, [CoffeeOrder(..., builder.syrups, ...)], reads
    other syrups once the builder has added one. *)
Lemma order_on_the_builders_set_follows_it :
  let h1 := snd (Heap.new_order "latte" "medium" "oat" 0 2 true
                   (Some pricing) latte_heap) in
  option_map CoffeeOrder.syrups (Heap.read_order h1 2) = Some ["vanilla"] /\
  option_map CoffeeOrder.syrups
    (Heap.read_order (Heap.run [(1%nat, AddSyrup "caramel")] h1) 2)
  = Some ["caramel"; "vanilla"].
Proof. split; vm_compute; reflexivity. Qed.

(** * Further properties *)

(** ** Strings *)

#[local] Arguments Py.isspace : simpl never.

Lemma has_nonspace_app (a b : string) :
  has_nonspace (a +:+ b) = has_nonspace a || has_nonspace b.
Proof.
  induction a as [|c a IH]; simpl; [reflexivity|].
  now rewrite IH, orb_assoc.
Qed.

Lemma lstrip_nonspace (s : string) :
  has_nonspace (Py.lstrip s) = has_nonspace s.
Proof.
  induction s as [|c s IH]; simpl; [reflexivity|].
  destruct (Py.isspace c) eqn:E; simpl; [exact IH|now rewrite E].
Qed.

Lemma rstrip_empty (s : string) :
  Py.rstrip s = "" -> has_nonspace s = false.
Proof.
  induction s as [|c s IH]; simpl; [reflexivity|].
  destruct (Py.rstrip s); [|discriminate].
  destruct (Py.isspace c); [|discriminate].
  intros _. simpl. now apply IH.
Qed.

Lemma rstrip_nonspace (s : string) :
  has_nonspace (Py.rstrip s) = has_nonspace s.
Proof.
  induction s as [|c s IH]; simpl; [reflexivity|].
  destruct (Py.rstrip s) as [|c' r] eqn:E.
  - rewrite (rstrip_empty s E).
    destruct (Py.isspace c) eqn:Ec; simpl; rewrite ?Ec; reflexivity.
  - simpl in *. now rewrite IH.
Qed.

Lemma strip_nonspace (s : string) :
  has_nonspace (Py.strip s) = has_nonspace s.
Proof. unfold Py.strip. now rewrite rstrip_nonspace, lstrip_nonspace. Qed.

(** What [rstrip] leaves is empty or ends in a character it keeps. *)
Lemma rstrip_ends (s : string) :
  Py.rstrip s = "" \/ ends_nonspace (Py.rstrip s) = true.
Proof.
  unfold ends_nonspace.
  induction s as [|c s IH]; simpl; [now left|].
  destruct (Py.rstrip s) as [|c' r] eqn:E.
  - destruct (Py.isspace c) eqn:Ec; [now left|]. right. simpl. now rewrite Ec.
  - right. destruct IH as [IH|IH]; [discriminate|]. exact IH.
Qed.

Lemma has_nonspace_nonempty (s : string) : has_nonspace s = true -> s <> "".
Proof. now destruct s. Qed.

Lemma strip_ends (s : string) :
  has_nonspace s = true -> ends_nonspace (Py.strip s) = true.
Proof.
  intros H. unfold Py.strip.
  destruct (rstrip_ends (Py.lstrip s)) as [E|E]; [|exact E].
  apply rstrip_empty in E. rewrite lstrip_nonspace in E. congruence.
Qed.

Lemma last_char_app (a b : string) :
  b <> "" -> last_char (a +:+ b) = last_char b.
Proof.
  intros Hb. induction a as [|c a IH]; simpl; [reflexivity|].
  destruct (a +:+ b) eqn:E; [|exact IH].
  destruct a; simpl in E; [contradiction|discriminate].
Qed.

Lemma ends_nonspace_app (a b : string) :
  ends_nonspace b = true -> ends_nonspace (a +:+ b) = true.
Proof.
  unfold ends_nonspace. intros H. rewrite last_char_app; [exact H|].
  now destruct b.
Qed.

Lemma ends_has_nonspace (s : string) :
  ends_nonspace s = true -> has_nonspace s = true.
Proof.
  unfold ends_nonspace.
  induction s as [|c s IH]; simpl; [discriminate|].
  destruct s as [|c' s'].
  - intros ->. reflexivity.
  - intros H. rewrite (IH H). apply orb_true_r.
Qed.

Lemma prefix_app (a b : string) : String.prefix a (a +:+ b) = true.
Proof.
  induction a as [|c a IH]; simpl; [now destruct b|].
  destruct (ascii_dec c c); [exact IH|contradiction].
Qed.

Lemma join_nonspace (sep : string) (l : list string) :
  existsb has_nonspace l = true -> has_nonspace (Py.join sep l) = true.
Proof.
  induction l as [|x l IH]; simpl; [discriminate|].
  destruct l as [|y l'].
  - now rewrite orb_false_r.
  - intros H. rewrite !has_nonspace_app.
    apply orb_true_iff in H as [H|H].
    + now rewrite H.
    + rewrite (IH H). now rewrite !orb_true_r.
Qed.

Lemma has_nonspace_cons (c : ascii) (s : string) :
  Py.isspace c = false -> has_nonspace (String c s) = true.
Proof. intros H. simpl. now rewrite H. Qed.

Lemma append_assoc (a b c : string) : (a +:+ b) +:+ c = a +:+ b +:+ c.
Proof.
  induction a as [|x a IH]; [reflexivity|].
  change (String x ((a +:+ b) +:+ c) = String x (a +:+ b +:+ c)).
  now rewrite IH.
Qed.

(** ** The description *)

(** The stripped, joined parts keep a visible character and end in one. *)
Lemma extras_text (parts : list string) :
  parts <> [] -> forallb has_nonspace parts = true ->
  ends_nonspace (Py.strip (Py.join " " parts)) = true.
Proof.
  intros Hne Hall. apply strip_ends, join_nonspace.
  destruct parts as [|x parts]; [contradiction|].
  simpl in *. apply andb_true_iff in Hall as [-> _]. reflexivity.
Qed.

Lemma description_eq (b s m : string) (l : list string) (n : Z) (i : bool) :
  CoffeeOrder._generate_description b s m l n i
  = match extra_parts m l n i with
    | [] => ""
    | parts => s +:+ " " +:+ b +:+ " " +:+ Py.strip (Py.join " " parts)
    end.
Proof.
  unfold CoffeeOrder._generate_description, extra_parts.
  now destruct (String.eqb m "none"), l, i, (0 <? n).
Qed.

Lemma extra_parts_nil (m : string) (l : list string) (n : Z) (i : bool) :
  extra_parts m l n i = [] <-> no_extras m l n i = true.
Proof.
  unfold extra_parts, no_extras.
  destruct (String.eqb m "none"), l, i, (0 <? n); simpl;
    split; discriminate || reflexivity.
Qed.

Lemma extra_parts_nonspace (m : string) (l : list string) (n : Z) (i : bool) :
  forallb has_nonspace (extra_parts m l n i) = true.
Proof.
  assert (Hm : has_nonspace ("with " +:+ m +:+ " milk") = true)
    by (now apply has_nonspace_cons).
  assert (Hl : has_nonspace ("+" +:+ Py.join ", " l) = true)
    by (now apply has_nonspace_cons).
  assert (Hn : has_nonspace (pretty n +:+ " tsp sugar") = true)
    by (rewrite has_nonspace_app; apply orb_true_r).
  unfold extra_parts.
  destruct (String.eqb m "none"), l, i, (0 <? n); simpl;
    rewrite ?Hm, ?Hl, ?Hn; reflexivity.
Qed.

(** With extras the description ends in a visible character. *)
Lemma description_ends (b s m : string) (l : list string) (n : Z) (i : bool) :
  no_extras m l n i = false ->
  ends_nonspace (CoffeeOrder._generate_description b s m l n i) = true.
Proof.
  intros N. rewrite description_eq.
  pose proof (extra_parts_nil m l n i) as Hp.
  pose proof (extra_parts_nonspace m l n i) as Hall.
  destruct (extra_parts m l n i) as [|x parts].
  - rewrite (proj1 Hp eq_refl) in N. discriminate.
  - rewrite <- !append_assoc. apply ends_nonspace_app.
    now apply extras_text.
Qed.

(** X11: the description is empty exactly for a selection without extras;
    otherwise it starts with the size, a space, the base and a space, and its
    last character is not whitespace. *)
Theorem description_shape
    (b s m : string) (l : list string) (n : Z) (i : bool) :
  let d := CoffeeOrder._generate_description b s m l n i in
  (d = "" <-> no_extras m l n i = true) /\
  (no_extras m l n i = false ->
   String.prefix (s +:+ " " +:+ b +:+ " ") d = true /\
   ends_nonspace d = true).
Proof.
  intros d. subst d. split; [split|].
  - intros H. destruct (no_extras m l n i) eqn:N; [reflexivity|].
    apply (description_ends b s) in N. rewrite H in N. discriminate.
  - intros N. apply extra_parts_nil in N. now rewrite description_eq, N.
  - intros N. split; [|now apply description_ends].
    rewrite description_eq.
    destruct (extra_parts m l n i) as [|x parts] eqn:E.
    { apply extra_parts_nil in E. congruence. }
    assert (A : forall t, s +:+ " " +:+ b +:+ " " +:+ t
                          = (s +:+ " " +:+ b +:+ " ") +:+ t)
      by (intros t; now rewrite !append_assoc).
    rewrite A. apply prefix_app.
Qed.

(** The description of an iced latte with 3 spoons of sugar. *)
Lemma description_shape_witness :
  String.prefix ("medium" +:+ " " +:+ "latte" +:+ " ")
    (CoffeeOrder._generate_description "latte" "medium" "none" [] 3 true)
  = true /\
  ends_nonspace
    (CoffeeOrder._generate_description "latte" "medium" "none" [] 3 true)
  = true.
Proof.
  apply (description_shape "latte" "medium" "none" [] 3 true).
  vm_compute. reflexivity.
Defined.

(** ** The text of an order *)

Lemma str_of_init (b s m : string) (l : list string) (n : Z) (i : bool)
    (pr : option pricing_t) (order : CoffeeOrder.t) :
  CoffeeOrder.__init__ b s m l n i pr = Ok order ->
  CoffeeOrder.description order
  = CoffeeOrder._generate_description b s m l n i /\
  CoffeeOrder.__str__ order =
  if no_extras m l n i
  then Py.format_2f (CoffeeOrder.price order) +:+ " RUB"
  else CoffeeOrder.description order.
Proof.
  unfold CoffeeOrder.__init__. intros H.
  destruct (CoffeeOrder._calculate_price b s m l i pr) as [p|e];
    [|discriminate].
  injection H as <-. unfold CoffeeOrder.__str__. simpl.
  split; [reflexivity|].
  destruct (no_extras m l n i) eqn:N.
  - apply extra_parts_nil in N. now rewrite description_eq, N.
  - apply (description_ends b s) in N. apply ends_has_nonspace in N.
    rewrite <- strip_nonspace in N.
    destruct (Py.strip _); [discriminate|reflexivity].
Qed.

(** X12: an order created without extras is rendered as its price with two
    decimals and " RUB"; any other order is rendered as its description,
    which is not empty. *)
Theorem str_price_or_description
    (b s m : string) (l : list string) (n : Z) (i : bool)
    (pr : option pricing_t) (order : CoffeeOrder.t) :
  CoffeeOrder.__init__ b s m l n i pr = Ok order ->
  CoffeeOrder.__str__ order =
  (if no_extras m l n i
   then Py.format_2f (CoffeeOrder.price order) +:+ " RUB"
   else CoffeeOrder.description order) /\
  (no_extras m l n i = false -> CoffeeOrder.description order <> "").
Proof.
  intros H. destruct (str_of_init b s m l n i pr order H) as [D S].
  split; [exact S|].
  intros N E. rewrite D in E. apply (description_ends b s) in N.
  rewrite E in N. discriminate.
Qed.

(** A small espresso without extras is rendered as its price. *)
Lemma str_price_or_description_witness :
  exists order,
    CoffeeOrder.__init__ "espresso" "small" "none" [] 0 false (Some pricing)
    = Ok order /\
    CoffeeOrder.__str__ order = "200.00 RUB".
Proof.
  eexists. split; [vm_compute; reflexivity|].
  apply (str_price_or_description "espresso" "small" "none" [] 0 false
           (Some pricing)).
  vm_compute. reflexivity.
Defined.

(** ** Prices against exact decimal arithmetic *)

Lemma tenths_cases (s : string) :
  Py.contains SIZE_MULTIPLIERS s = true -> exists k, Exact.tenths s = Some k.
Proof.
  intros H. apply size_cases in H as [->|[->| ->]]; eexists; reflexivity.
Qed.

(** X8: for a recognized base, size and milk and at most four syrups, the
    exact price is a whole number of roubles between 200 and 776; the float
    the code computes is that number or the float just below it, and it
    prints as that number with two decimals. *)
Theorem price_near_exact (b s m : string) (l : list string) (i : bool) :
  Py.contains BASE_PRICES b = true ->
  Py.contains SIZE_MULTIPLIERS s = true ->
  Py.contains MILK_PRICES m = true ->
  (length l <= 4)%nat ->
  exists bp mp k p,
    Py.get BASE_PRICES b = Some bp /\ Py.get MILK_PRICES m = Some mp /\
    Exact.tenths s = Some k /\
    CoffeeOrder._calculate_price b s m l i (Some pricing) = Ok p /\
    let N := Exact.price bp mp k (length l) i in
    ((bp + mp + 40 * Z.of_nat (length l)) * k) mod 10 = 0 /\
    200 <= N <= 776 /\
    (p = Spec.of_int N \/ p = PrimFloat.next_down (Spec.of_int N)) /\
    Py.format_2f p = pretty N +:+ ".00".
Proof.
  intros Hb Hs Hm Hl.
  selection Hb Hs Hm Hl l; destruct i;
    do 3 eexists;
    match goal with
    | |- exists p, _ /\ _ /\ _ /\ ?c = _ /\ _ =>
        let r := eval vm_compute in c in
        match r with Ok ?x => exists x end
    end;
    (split; [reflexivity|split; [reflexivity|split; [reflexivity|]]]);
    (split; [vm_compute; reflexivity|]);
    (split; [vm_compute; reflexivity|]);
    (split; [vm_compute; split; discriminate|]);
    (split; [|vm_compute; reflexivity]);
    first [left; vm_compute; reflexivity | right; vm_compute; reflexivity].
Qed.

(** A large americano with oat milk and one syrup: 350 * 1.4 is computed as
    the float just below 490. *)
Lemma price_near_exact_witness :
  CoffeeOrder._calculate_price "americano" "large" "oat" ["vanilla"] false
    (Some pricing) = Ok (PrimFloat.next_down (Spec.of_int 490)) /\
  exists bp mp k p,
    Py.get BASE_PRICES "americano" = Some bp /\
    Py.get MILK_PRICES "oat" = Some mp /\
    Exact.tenths "large" = Some k /\
    CoffeeOrder._calculate_price "americano" "large" "oat" ["vanilla"] false
      (Some pricing) = Ok p /\
    let N := Exact.price bp mp k (length ["vanilla"]) false in
    ((bp + mp + 40 * Z.of_nat (length ["vanilla"])) * k) mod 10 = 0 /\
    200 <= N <= 776 /\
    (p = Spec.of_int N \/ p = PrimFloat.next_down (Spec.of_int N)) /\
    Py.format_2f p = pretty N +:+ ".00".
Proof.
  split; [vm_compute; reflexivity|].
  apply (price_near_exact "americano" "large" "oat" ["vanilla"] false).
  - reflexivity.
  - reflexivity.
  - reflexivity.
  - simpl. lia.
Defined.

(** ** The states of a builder *)

Lemma reachable_eq self self' :
  reachable self -> self = self' -> reachable self'.
Proof. now intros H <-. Qed.

Lemma reachable_run_calls (cs : list call) self :
  reachable self -> reachable (run_calls cs self).
Proof. apply reachable_from. Qed.

(** Whether it returns or raises, [add_syrup] leaves the set with the name
    added, as long as that set has at most four names. *)
Lemma add_syrup_state (x : string) self :
  (stdpp.base.size ({[ x ]} ∪ syrups self) <= 4)%nat ->
  snd (add_syrup x self) =
  {| base := base self; size := size self; milk := milk self;
     syrups := {[ x ]} ∪ syrups self; sugar := sugar self;
     iced := iced self |}.
Proof.
  intros H. rewrite add_syrup_eq.
  destruct (4 <=? Z.of_nat (stdpp.base.size (syrups self))) eqn:E;
    [|reflexivity].
  apply Z.leb_le in E.
  assert (S : syrups self = {[ x ]} ∪ syrups self).
  { apply set_subseteq_size_eq; [apply union_subseteq_r|lia]. }
  rewrite <- S. now destruct self.
Qed.

Lemma add_syrups_state (l : list string) self :
  (stdpp.base.size (list_to_set l ∪ syrups self) <= 4)%nat ->
  run_calls (map AddSyrup l) self =
  {| base := base self; size := size self; milk := milk self;
     syrups := list_to_set l ∪ syrups self; sugar := sugar self;
     iced := iced self |}.
Proof.
  revert self. induction l as [|x l IH]; intros self H.
  - simpl. rewrite (left_id_L ∅ (∪)). now destruct self.
  - change (run_calls (map AddSyrup (x :: l)) self)
      with (run_calls (map AddSyrup l) (snd (run_call (AddSyrup x) self))).
    rewrite run_call_state.
    assert (E : list_to_set (x :: l) ∪ syrups self
                = list_to_set l ∪ ({[ x ]} ∪ syrups self) :> gset string)
      by (simpl; now rewrite (comm_L (∪) {[ x ]}), <- (assoc_L (∪))).
    rewrite add_syrup_state.
    + rewrite IH; simpl; rewrite <- E; [reflexivity|exact H].
    + etrans; [|exact H]. apply subseteq_size. simpl.
      apply union_mono_r, union_subseteq_l.
Qed.

(** X1: the states a builder reaches through its interface are exactly those
    where base and size are unset or catalog keys, milk is a catalog key, the
    set holds at most four syrups and sugar is between 0 and 5. *)
Theorem reachable_states self :
  reachable self <->
  (forall b, base self = Some b -> In b (Py.keys BASE_PRICES)) /\
  (forall s, size self = Some s -> In s (Py.keys SIZE_MULTIPLIERS)) /\
  In (milk self) (Py.keys MILK_PRICES) /\
  (stdpp.base.size (syrups self) <= 4)%nat /\
  0 <= sugar self <= 5.
Proof.
  split.
  - intros R. apply reachable_valid, valid_spec in R
      as (Vb & Vs & Vm & Vn & Vg).
    repeat split; try tauto; try lia.
    + intros b Hb. apply contains_keys; auto.
    + intros s Hs. apply contains_keys; auto.
    + apply contains_keys; auto.
  - intros (Vb & Vs & Vm & Vn & Vg).
    destruct self as [ob os m X n i].
    cbn [base size milk syrups sugar iced] in *.
    assert (R1 : reachable
              {| base := ob; size := None; milk := "none"; syrups := ∅;
                 sugar := 0; iced := false |}).
    { destruct ob as [b|]; [|constructor].
      eapply reachable_eq;
        [apply (reachable_call (SetBase b)), reachable_init|].
      rewrite run_call_state, set_base_eq, keys_contains by eauto.
      reflexivity. }
    assert (R2 : reachable
              {| base := ob; size := os; milk := "none"; syrups := ∅;
                 sugar := 0; iced := false |}).
    { destruct os as [s|]; [|exact R1].
      eapply reachable_eq; [apply (reachable_call (SetSize s)), R1|].
      rewrite run_call_state, set_size_eq, keys_contains by eauto.
      reflexivity. }
    assert (R3 : reachable
              {| base := ob; size := os; milk := m; syrups := ∅;
                 sugar := 0; iced := false |}).
    { eapply reachable_eq; [apply (reachable_call (SetMilk m)), R2|].
      rewrite run_call_state, set_milk_eq, keys_contains by eauto.
      reflexivity. }
    assert (R4 : reachable
              {| base := ob; size := os; milk := m; syrups := X;
                 sugar := 0; iced := false |}).
    { eapply reachable_eq;
        [apply (reachable_run_calls (map AddSyrup (elements X))), R3|].
      rewrite add_syrups_state; simpl;
        rewrite list_to_set_elements_L, (right_id_L ∅ (∪)); auto. }
    assert (R5 : reachable
              {| base := ob; size := os; milk := m; syrups := X;
                 sugar := n; iced := false |}).
    { eapply reachable_eq; [apply (reachable_call (SetSugar n)), R4|].
      rewrite run_call_state, set_sugar_eq.
      replace ((0 <=? n) && (n <=? 5)) with true; [reflexivity|].
      symmetry. apply andb_true_iff. split; apply Z.leb_le; lia. }
    eapply reachable_eq; [apply (reachable_call (SetIced i)), R5|].
    now rewrite run_call_state.
Qed.

(** A builder with a latte, oat milk and one syrup is reachable. *)
Lemma reachable_states_witness :
  reachable {| base := Some "latte"; size := None; milk := "oat";
               syrups := {[ "vanilla" ]}; sugar := 5; iced := true |}.
Proof.
  apply (proj2 (reachable_states _)). simpl.
  split; [intros b [= <-]; tauto|].
  split; [intros s H; discriminate|].
  split; [tauto|].
  split; [vm_compute; lia|lia].
Defined.

(** ** The orders a builder creates *)

Lemma selection_bounds (b s m : string) (l : list string) (i : bool) :
  Py.contains BASE_PRICES b = true ->
  Py.contains SIZE_MULTIPLIERS s = true ->
  Py.contains MILK_PRICES m = true ->
  (length l <= 4)%nat ->
  exists p,
    CoffeeOrder._calculate_price b s m l i (Some pricing) = Ok p /\
    PrimFloat.leb 200 p = true /\ PrimFloat.leb p 776 = true.
Proof.
  intros Hb Hs Hm Hl.
  selection Hb Hs Hm Hl l; destruct i;
    match goal with
    | |- exists p, ?c = _ /\ _ =>
        let r := eval vm_compute in c in
        match r with Ok ?x => exists x end
    end;
    repeat split; vm_compute; reflexivity.
Qed.

(** X6: every order a builder creates has a base, a size and a milk of the
    catalog, at most four syrups, all different and exactly those of the
    builder's set, a sugar count from 0 to 5, and a price from 200 to 776. *)
Theorem built_order_invariants self (order : CoffeeOrder.t) :
  reachable self ->
  fst (build self) = Ok order ->
  In (CoffeeOrder.base order) (Py.keys BASE_PRICES) /\
  In (CoffeeOrder.size order) (Py.keys SIZE_MULTIPLIERS) /\
  In (CoffeeOrder.milk order) (Py.keys MILK_PRICES) /\
  NoDup (CoffeeOrder.syrups order) /\
  (length (CoffeeOrder.syrups order) <= 4)%nat /\
  (forall x, In x (CoffeeOrder.syrups order) <-> x ∈ syrups self) /\
  0 <= CoffeeOrder.sugar order <= 5 /\
  PrimFloat.leb 200 (CoffeeOrder.price order) = true /\
  PrimFloat.leb (CoffeeOrder.price order) 776 = true.
Proof.
  intros R H. apply reachable_valid, valid_spec in R
    as (Vb & Vs & Vm & Vn & Vg).
  rewrite build_eq in H. simpl in H.
  destruct (base self) as [b|]; [|discriminate].
  destruct (size self) as [s|]; [|discriminate].
  destruct (selection_bounds b s (milk self) (elements (syrups self))
              (iced self) (Vb _ eq_refl) (Vs _ eq_refl) Vm Vn)
    as (p & E & L1 & L2).
  unfold CoffeeOrder.__init__ in H. rewrite E in H.
  injection H as <-. cbn [CoffeeOrder.base CoffeeOrder.size CoffeeOrder.milk
    CoffeeOrder.syrups CoffeeOrder.sugar CoffeeOrder.price].
  split; [apply contains_keys; auto|].
  split; [apply contains_keys; auto|].
  split; [apply contains_keys; auto|].
  split; [apply NoDup_elements|].
  split; [exact Vn|].
  split; [|auto].
  intros x. rewrite <- list_elem_of_In. apply elem_of_elements.
Qed.

(** The order of a large cappuccino with two syrups. *)
Lemma built_order_invariants_witness :
  let self := after [SetBase "cappuccino"; SetSize "large";
                     AddSyrup "mint"; AddSyrup "nut"] in
  let order :=
    {| CoffeeOrder.base := "cappuccino"; CoffeeOrder.size := "large";
       CoffeeOrder.milk := "none"; CoffeeOrder.syrups := ["mint"; "nut"];
       CoffeeOrder.sugar := 0; CoffeeOrder.iced := false;
       CoffeeOrder.price := 560%float;
       CoffeeOrder.description := "large cappuccino +mint, nut" |} in
  fst (build self) = Ok order /\
  (In (CoffeeOrder.base order) (Py.keys BASE_PRICES) /\
   In (CoffeeOrder.size order) (Py.keys SIZE_MULTIPLIERS) /\
   In (CoffeeOrder.milk order) (Py.keys MILK_PRICES) /\
   NoDup (CoffeeOrder.syrups order) /\
   (length (CoffeeOrder.syrups order) <= 4)%nat /\
   (forall x, In x (CoffeeOrder.syrups order) <-> x ∈ syrups self) /\
   0 <= CoffeeOrder.sugar order <= 5 /\
   PrimFloat.leb 200 (CoffeeOrder.price order) = true /\
   PrimFloat.leb (CoffeeOrder.price order) 776 = true).
Proof.
  intros self order. split; [vm_compute; reflexivity|].
  apply (built_order_invariants self order).
  - apply reachable_after.
  - vm_compute. reflexivity.
Defined.

(** X14: an order built without extras is rendered as its exact price, a
    whole number of roubles, with ".00 RUB". *)
Theorem plain_order_text self (b s : string) :
  reachable self ->
  base self = Some b -> size self = Some s ->
  milk self = "none" -> syrups self = ∅ -> sugar self = 0 ->
  iced self = false ->
  exists order bp k,
    fst (build self) = Ok order /\
    Py.get BASE_PRICES b = Some bp /\ Exact.tenths s = Some k /\
    (bp * k) mod 10 = 0 /\
    CoffeeOrder.__str__ order = pretty (bp * k / 10) +:+ ".00 RUB".
Proof.
  intros R Hb Hs Hm Hl Hn Hi.
  apply reachable_valid, valid_spec in R as (Vb & Vs & _).
  specialize (Vb _ Hb). specialize (Vs _ Hs).
  rewrite build_eq, Hb, Hs, Hm, Hl, Hn, Hi.
  apply base_cases in Vb. apply size_cases in Vs.
  repeat match goal with H : _ \/ _ |- _ => destruct H end; subst;
    do 3 eexists;
    (split; [vm_compute; reflexivity|]);
    (split; [reflexivity|]); (split; [reflexivity|]);
    split; vm_compute; reflexivity.
Qed.

(** A medium cappuccino is rendered as 384.00 RUB. *)
Lemma plain_order_text_witness :
  exists order bp k,
    fst (build (after [SetBase "cappuccino"; SetSize "medium"])) = Ok order /\
    Py.get BASE_PRICES "cappuccino" = Some bp /\
    Exact.tenths "medium" = Some k /\
    (bp * k) mod 10 = 0 /\
    CoffeeOrder.__str__ order = pretty (bp * k / 10) +:+ ".00 RUB".
Proof.
  apply (plain_order_text (after [SetBase "cappuccino"; SetSize "medium"])).
  - apply reachable_after.
  - vm_compute. reflexivity.
  - vm_compute. reflexivity.
  - vm_compute. reflexivity.
  - vm_compute. reflexivity.
  - vm_compute. reflexivity.
  - vm_compute. reflexivity.
Defined.

(** ** When a call raises *)

Lemma run_call_outcome (c : call) self :
  fst (run_call c self) =
  match c with
  | SetBase b => match fst (set_base b self) with
                 | Ok _ => Ok None | Raise e => Raise e end
  | SetSize s => match fst (set_size s self) with
                 | Ok _ => Ok None | Raise e => Raise e end
  | SetMilk m => match fst (set_milk m self) with
                 | Ok _ => Ok None | Raise e => Raise e end
  | AddSyrup x => match fst (add_syrup x self) with
                  | Ok _ => Ok None | Raise e => Raise e end
  | SetSugar n => match fst (set_sugar n self) with
                  | Ok _ => Ok None | Raise e => Raise e end
  | SetIced _ | ClearExtras => Ok None
  | Build => match fst (build self) with
             | Ok order => Ok (Some order) | Raise e => Raise e end
  end.
Proof. destruct c; unfold run_call; now rewrite bind_ret_eq. Qed.

Lemma contains_false_keys {V} (d : Py.dict V) (k : string) :
  Py.contains d k = false <-> ~ In k (Py.keys d).
Proof.
  split.
  - intros H I. apply keys_contains in I. congruence.
  - intros H. destruct (Py.contains d k) eqn:E; [|reflexivity].
    now apply contains_keys in E.
Qed.

(** X2: on a builder reached through its interface, a call raises exactly
    in these cases, with these exceptions: an unrecognized base, size or
    milk; a syrup when the set holds four; a sugar count outside 0..5;
    [build] without a base, or with a base and without a size.  [set_iced]
    and [clear_extras] never raise. *)
Theorem call_raises_iff (c : call) self (e : exn) :
  reachable self ->
  (fst (run_call c self) = Raise e <->
   match c with
   | SetBase b =>
       ~ In b ["espresso"; "americano"; "latte"; "cappuccino"] /\
       e = ValueError
             "Base must be one of: espresso, americano, latte, cappuccino"
   | SetSize s =>
       ~ In s ["small"; "medium"; "large"] /\
       e = ValueError "Size must be one of: small, medium, large"
   | SetMilk m =>
       ~ In m ["whole"; "skim"; "oat"; "soy"; "none"] /\
       e = ValueError "Milk must be one of: whole, skim, oat, soy, none"
   | AddSyrup _ =>
       stdpp.base.size (syrups self) = 4%nat /\
       e = ValueError "Maximum 4 syrups allowed"
   | SetSugar n =>
       (n < 0 \/ 5 < n) /\ e = ValueError "Sugar must be between 0 and 5"
   | SetIced _ | ClearExtras => False
   | Build =>
       (base self = None /\ e = ValueError "Base is required") \/
       (base self <> None /\ size self = None /\
        e = ValueError "Size is required")
   end).
Proof.
  intros R. pose proof (reachable_valid _ R) as V.
  rewrite run_call_outcome.
  destruct c as [b|s|m|x|n|i| |].
  - rewrite set_base_eq.
    destruct (Py.contains BASE_PRICES b) eqn:E; simpl.
    + apply contains_keys in E. split; [discriminate|tauto].
    + apply contains_false_keys in E. split; [now intros [= <-]|].
      now intros [_ ->].
  - rewrite set_size_eq.
    destruct (Py.contains SIZE_MULTIPLIERS s) eqn:E; simpl.
    + apply contains_keys in E. split; [discriminate|tauto].
    + apply contains_false_keys in E. split; [now intros [= <-]|].
      now intros [_ ->].
  - rewrite set_milk_eq.
    destruct (Py.contains MILK_PRICES m) eqn:E; simpl.
    + apply contains_keys in E. split; [discriminate|tauto].
    + apply contains_false_keys in E. split; [now intros [= <-]|].
      now intros [_ ->].
  - rewrite add_syrup_eq. apply valid_spec in V as (_ & _ & _ & Vn & _).
    destruct (4 <=? Z.of_nat (stdpp.base.size (syrups self))) eqn:E; simpl.
    + apply Z.leb_le in E. split; [intros [= <-]; split; [lia|reflexivity]|].
      now intros [_ ->].
    + apply Z.leb_gt in E. split; [discriminate|]. intros [H _]. lia.
  - rewrite set_sugar_eq.
    destruct ((0 <=? n) && (n <=? 5)) eqn:E; simpl.
    + apply andb_true_iff in E as [E1 E2]. apply Z.leb_le in E1, E2.
      split; [discriminate|]. intros [H _]. lia.
    + apply andb_false_iff in E. rewrite !Z.leb_gt in E.
      split; [intros [= <-]; split; [lia|reflexivity]|]. now intros [_ ->].
  - split; [discriminate|tauto].
  - split; [discriminate|tauto].
  - destruct (base self) as [b|] eqn:Hb; [destruct (size self) as [s|] eqn:Hs|].
    + destruct (build_valid self b s V Hb Hs) as (? & ? & ? & _ & _ & _ & E).
      rewrite E. simpl. split; [discriminate|].
      intros [[H _]|(_ & H & _)]; discriminate.
    + rewrite build_eq, Hb, Hs. simpl. split.
      * intros [= <-]. right. repeat split. discriminate.
      * intros [[H _]|(_ & _ & ->)]; [discriminate|reflexivity].
    + rewrite build_eq, Hb. simpl. split.
      * intros [= <-]. now left.
      * intros [[_ ->]|(H & _)]; [reflexivity|contradiction].
Qed.

(** A sugar count of 6 on a fresh builder. *)
Lemma call_raises_iff_witness :
  fst (run_call (SetSugar 6) __init__)
  = Raise (ValueError "Sugar must be between 0 and 5") <->
  (6 < 0 \/ 5 < 6) /\
  ValueError "Sugar must be between 0 and 5"
  = ValueError "Sugar must be between 0 and 5".
Proof.
  apply (call_raises_iff (SetSugar 6) __init__
           (ValueError "Sugar must be between 0 and 5")).
  apply reachable_init.
Defined.

(** ** How calls compose *)

Lemma set_iced_eq (i : bool) self :
  set_iced i self =
  (Ok tt, {| base := base self; size := size self; milk := milk self;
             syrups := syrups self; sugar := sugar self; iced := i |}).
Proof. reflexivity. Qed.

(** X4: two calls that assign no common attribute can be made in either
    order: the builder ends in the same state, whether they return or
    raise. *)
Theorem independent_calls_commute (c1 c2 : call) self :
  independent c1 c2 = true ->
  snd (run_call c2 (snd (run_call c1 self)))
  = snd (run_call c1 (snd (run_call c2 self))).
Proof.
  intros H. rewrite !run_call_state.
  destruct c1 as [b1|s1|m1|x1|n1|i1| |], c2 as [b2|s2|m2|x2|n2|i2| |];
    try discriminate H; try reflexivity;
    rewrite ?set_base_eq, ?set_size_eq, ?set_milk_eq, ?add_syrup_eq,
      ?set_sugar_eq, ?set_iced_eq, ?clear_extras_eq;
    split_tests; reflexivity.
Qed.

(** Choosing the milk and adding a syrup, in either order. *)
Lemma independent_calls_commute_witness :
  snd (run_call (AddSyrup "mint") (snd (run_call (SetMilk "soy") __init__)))
  = snd (run_call (SetMilk "soy") (snd (run_call (AddSyrup "mint") __init__))).
Proof.
  apply (independent_calls_commute (SetMilk "soy") (AddSyrup "mint") __init__).
  reflexivity.
Defined.

Lemma clear_after_extra (c : call) self :
  extras_only c = true ->
  snd (clear_extras (snd (run_call c self))) = snd (clear_extras self).
Proof.
  intros H. rewrite run_call_state, !clear_extras_eq.
  destruct c as [b|s|m|x|n|i| |]; try discriminate H; try reflexivity;
    rewrite ?set_milk_eq, ?add_syrup_eq, ?set_sugar_eq, ?set_iced_eq;
    split_tests; reflexivity.
Qed.

(** X5: [clear_extras] undoes every sequence of calls that assign extras
    only: after them it leaves the state it would have left before them. *)
Theorem clear_extras_absorbs (cs : list call) self :
  forallb extras_only cs = true ->
  snd (clear_extras (run_calls cs self)) = snd (clear_extras self).
Proof.
  revert self. induction cs as [|c cs IH]; intros self H; [reflexivity|].
  simpl in H. apply andb_true_iff in H as [Hc Hcs].
  change (run_calls (c :: cs) self)
    with (run_calls cs (snd (run_call c self))).
  rewrite (IH _ Hcs). now apply clear_after_extra.
Qed.

(** Oat milk, two syrups, sugar and ice, then [clear_extras]. *)
Lemma clear_extras_absorbs_witness :
  let self := after [SetBase "latte"; SetSize "small"] in
  snd (clear_extras
         (run_calls [SetMilk "oat"; AddSyrup "mint"; AddSyrup "nut";
                     SetSugar 9; SetSugar 3; SetIced true; Build] self))
  = snd (clear_extras self).
Proof.
  intros self.
  apply (clear_extras_absorbs
           [SetMilk "oat"; AddSyrup "mint"; AddSyrup "nut"; SetSugar 9;
            SetSugar 3; SetIced true; Build] self).
  reflexivity.
Defined.

(** ** Syrups below the limit *)

(** X3: with fewer than four syrups in the set, [add_syrup] leaves the old
    names and the new one; a name already present changes nothing, a new
    name makes the set one larger. *)
Theorem add_syrup_effect (x : string) self :
  (stdpp.base.size (syrups self) < 4)%nat ->
  let self' := snd (add_syrup x self) in
  fst (add_syrup x self) = Ok tt /\
  (forall y, y ∈ syrups self' <-> y = x \/ y ∈ syrups self) /\
  (x ∈ syrups self -> self' = self) /\
  (x ∉ syrups self ->
   stdpp.base.size (syrups self') = S (stdpp.base.size (syrups self))).
Proof.
  intros H self'. subst self'. rewrite add_syrup_eq.
  destruct (4 <=? Z.of_nat (stdpp.base.size (syrups self))) eqn:E.
  { apply Z.leb_le in E. lia. }
  cbn [fst snd syrups]. split; [reflexivity|]. split; [|split].
  - intros y. rewrite elem_of_union, elem_of_singleton. tauto.
  - intros Hx.
    assert (S : {[ x ]} ∪ syrups self = syrups self).
    { apply (anti_symm (⊆)); [|apply union_subseteq_r].
      apply union_least; [|reflexivity]. now apply singleton_subseteq_l. }
    rewrite S. now destruct self.
  - intros Hx. rewrite size_union, size_singleton; [reflexivity|].
    now apply disjoint_singleton_l.
Qed.

(** Vanilla twice on a fresh builder: one syrup. *)
Lemma add_syrup_effect_witness :
  let self := snd (add_syrup "vanilla" __init__) in
  "vanilla" ∈ syrups self /\ snd (add_syrup "vanilla" self) = self /\
  stdpp.base.size (syrups (snd (add_syrup "vanilla" self))) = 1%nat.
Proof.
  intros self.
  assert (H : (stdpp.base.size (syrups self) < 4)%nat)
    by (vm_compute; lia).
  assert (I : "vanilla" ∈ syrups self)
    by (apply (bool_decide_unpack _); vm_compute; exact I).
  destruct (add_syrup_effect "vanilla" self H) as (_ & _ & Same & _).
  split; [exact I|]. split; [exact (Same I)|].
  rewrite (Same I). vm_compute. reflexivity.
Defined.

(** ** Orders created directly *)

Lemma getitem_missing {V} (d : Py.dict V) (k : string) :
  ~ In k (Py.keys d) -> Py.getitem d k = Raise (KeyError k).
Proof.
  intros H. apply contains_false_keys in H.
  unfold Py.contains, Py.getitem in *. now destruct (Py.get d k).
Qed.

Lemma getitem_present {V} (d : Py.dict V) (k : string) :
  In k (Py.keys d) -> exists v, Py.getitem d k = Ok v.
Proof. intros H. now apply getitem_contains, keys_contains. Qed.

(** X7: creating an order with the catalog of the builder raises a KeyError
    for the first of base, size and milk that is not a catalog key, in this
    order, and raises no KeyError when all three are keys. *)
Theorem init_key_errors
    (b s m : string) (l : list string) (n : Z) (i : bool) :
  let r := CoffeeOrder.__init__ b s m l n i (Some pricing) in
  (~ In b (Py.keys BASE_PRICES) -> r = Raise (KeyError b)) /\
  (In b (Py.keys BASE_PRICES) -> ~ In s (Py.keys SIZE_MULTIPLIERS) ->
   r = Raise (KeyError s)) /\
  (In b (Py.keys BASE_PRICES) -> In s (Py.keys SIZE_MULTIPLIERS) ->
   ~ In m (Py.keys MILK_PRICES) -> r = Raise (KeyError m)) /\
  (In b (Py.keys BASE_PRICES) -> In s (Py.keys SIZE_MULTIPLIERS) ->
   In m (Py.keys MILK_PRICES) -> forall k, r <> Raise (KeyError k)).
Proof.
  intros r. subst r.
  unfold CoffeeOrder.__init__, CoffeeOrder._calculate_price.
  cbn [base_prices size_multipliers milk_prices pricing].
  split; [|split; [|split]].
  - intros Hb. now rewrite (getitem_missing _ _ Hb).
  - intros Hb Hs. destruct (getitem_present _ _ Hb) as [bp ->].
    now rewrite (getitem_missing _ _ Hs).
  - intros Hb Hs Hm. destruct (getitem_present _ _ Hb) as [bp ->].
    destruct (getitem_present _ _ Hs) as [sm ->].
    now rewrite (getitem_missing _ _ Hm).
  - intros Hb Hs Hm k. destruct (getitem_present _ _ Hb) as [bp ->].
    destruct (getitem_present _ _ Hs) as [sm ->].
    destruct (getitem_present _ _ Hm) as [mp ->].
    unfold Py.int_mul_float, Py.float_add_int, Py.float_of_int.
    unfold mbind, result_bind, mret, result_ret.
    destruct (PrimFloat.is_infinity _); [discriminate|].
    destruct (PrimFloat.is_infinity _); discriminate.
Qed.

(** A known base with an unknown size. *)
Lemma init_key_errors_witness :
  CoffeeOrder.__init__ "latte" "huge" "milk" [] 0 false (Some pricing)
  = Raise (KeyError "huge").
Proof.
  apply (init_key_errors "latte" "huge" "milk" [] 0 false).
  - simpl. tauto.
  - simpl. intuition discriminate.
Defined.

(** ** How the price grows *)

(** X9: for a recognized base, size and milk, one more syrup, up to four,
    makes the price strictly greater. *)
Theorem more_syrups_cost_more
    (b s m x : string) (l : list string) (i : bool) :
  Py.contains BASE_PRICES b = true ->
  Py.contains SIZE_MULTIPLIERS s = true ->
  Py.contains MILK_PRICES m = true ->
  (length l <= 3)%nat ->
  exists p p',
    CoffeeOrder._calculate_price b s m l i (Some pricing) = Ok p /\
    CoffeeOrder._calculate_price b s m (x :: l) i (Some pricing) = Ok p' /\
    PrimFloat.ltb p p' = true.
Proof.
  intros Hb Hs Hm Hl.
  apply base_cases in Hb. apply size_cases in Hs. apply milk_cases in Hm.
  destruct l as [|? [|? [|? [|? ?]]]]; [ | | | |simpl in Hl; lia]; clear Hl;
    repeat match goal with H : _ \/ _ |- _ => destruct H end; subst;
    destruct i;
    match goal with
    | |- exists p0 p1, ?c0 = _ /\ ?c1 = _ /\ _ =>
        let r0 := eval vm_compute in c0 in
        let r1 := eval vm_compute in c1 in
        match r0 with
        | Ok ?x0 => match r1 with Ok ?x1 => exists x0, x1 end
        end
    end;
    repeat split; vm_compute; reflexivity.
Qed.

(** A small espresso with one syrup costs more than without. *)
Lemma more_syrups_cost_more_witness :
  exists p p',
    CoffeeOrder._calculate_price "espresso" "small" "none" [] false
      (Some pricing) = Ok p /\
    CoffeeOrder._calculate_price "espresso" "small" "none" ["mint"] false
      (Some pricing) = Ok p' /\
    PrimFloat.ltb p p' = true.
Proof.
  apply (more_syrups_cost_more "espresso" "small" "none" "mint" [] false).
  - reflexivity.
  - reflexivity.
  - reflexivity.
  - simpl. lia.
Defined.

(** X10: for a recognized base and milk and at most four syrups, small
    costs strictly less than medium and medium strictly less than large. *)
Theorem larger_size_costs_more (b m : string) (l : list string) (i : bool) :
  Py.contains BASE_PRICES b = true ->
  Py.contains MILK_PRICES m = true ->
  (length l <= 4)%nat ->
  exists ps pm pl,
    CoffeeOrder._calculate_price b "small" m l i (Some pricing) = Ok ps /\
    CoffeeOrder._calculate_price b "medium" m l i (Some pricing) = Ok pm /\
    CoffeeOrder._calculate_price b "large" m l i (Some pricing) = Ok pl /\
    PrimFloat.ltb ps pm = true /\ PrimFloat.ltb pm pl = true.
Proof.
  intros Hb Hm Hl.
  apply base_cases in Hb. apply milk_cases in Hm.
  destruct l as [|? [|? [|? [|? [|? ?]]]]]; [ | | | | |simpl in Hl; lia];
    clear Hl;
    repeat match goal with H : _ \/ _ |- _ => destruct H end; subst;
    destruct i;
    match goal with
    | |- exists p0 p1 p2, ?c0 = _ /\ ?c1 = _ /\ ?c2 = _ /\ _ =>
        let r0 := eval vm_compute in c0 in
        let r1 := eval vm_compute in c1 in
        let r2 := eval vm_compute in c2 in
        match r0 with
        | Ok ?x0 =>
            match r1 with
            | Ok ?x1 => match r2 with Ok ?x2 => exists x0, x1, x2 end
            end
        end
    end;
    repeat split; vm_compute; reflexivity.
Qed.

(** The three sizes of a latte with oat milk. *)
Lemma larger_size_costs_more_witness :
  exists ps pm pl,
    CoffeeOrder._calculate_price "latte" "small" "oat" [] false
      (Some pricing) = Ok ps /\
    CoffeeOrder._calculate_price "latte" "medium" "oat" [] false
      (Some pricing) = Ok pm /\
    CoffeeOrder._calculate_price "latte" "large" "oat" [] false
      (Some pricing) = Ok pl /\
    PrimFloat.ltb ps pm = true /\ PrimFloat.ltb pm pl = true.
Proof.
  apply (larger_size_costs_more "latte" "oat" [] false).
  - reflexivity.
  - reflexivity.
  - simpl. lia.
Defined.

(** ** What the text shows *)

Lemma occurs_str_in (needle hay : string) :
  occurs needle hay -> Py.str_in needle hay = true.
Proof.
  intros (pre & post & ->).
  induction pre as [|c pre IH].
  - change ("" +:+ needle +:+ post) with (needle +:+ post).
    pose proof (prefix_app needle post) as P.
    destruct (needle +:+ post); cbn [Py.str_in]; now rewrite P.
  - change (String c pre +:+ needle +:+ post)
      with (String c (pre +:+ needle +:+ post)).
    cbn [Py.str_in]. rewrite IH. apply orb_true_r.
Qed.

Lemma occurs_refl (s : string) : occurs s s.
Proof.
  exists "", "". change ("" +:+ s +:+ "") with (s +:+ "").
  induction s as [|c s IH]; [reflexivity|].
  change (String c s +:+ "") with (String c (s +:+ "")). now rewrite <- IH.
Qed.

Lemma occurs_app_l (n a h : string) : occurs n h -> occurs n (a +:+ h).
Proof.
  intros (pre & post & ->). exists (a +:+ pre), post.
  now rewrite append_assoc.
Qed.

Lemma occurs_app_r (n h a : string) : occurs n h -> occurs n (h +:+ a).
Proof.
  intros (pre & post & ->). exists pre, (post +:+ a).
  now rewrite !append_assoc.
Qed.

Lemma occurs_trans (n p h : string) : occurs n p -> occurs p h -> occurs n h.
Proof.
  intros Hn (pre & post & ->). now apply occurs_app_l, occurs_app_r.
Qed.

Lemma occurs_join (sep x : string) (l : list string) :
  In x l -> occurs x (Py.join sep l).
Proof.
  induction l as [|y l IH]; [contradiction|].
  intros [->|H].
  - destruct l as [|z l]; [apply occurs_refl|].
    change (Py.join sep (x :: z :: l))
      with (x +:+ sep +:+ Py.join sep (z :: l)).
    apply occurs_app_r, occurs_refl.
  - destruct l as [|z l]; [contradiction|].
    change (Py.join sep (y :: z :: l))
      with (y +:+ sep +:+ Py.join sep (z :: l)).
    now apply occurs_app_l, occurs_app_l, IH.
Qed.

Lemma lstrip_app (a b : string) :
  Py.lstrip (a +:+ b)
  = if has_nonspace a then Py.lstrip a +:+ b else Py.lstrip b.
Proof.
  induction a as [|c a IH]; [reflexivity|].
  change (String c a +:+ b) with (String c (a +:+ b)). simpl.
  destruct (Py.isspace c); [exact IH|reflexivity].
Qed.

Lemma rstrip_app (a b : string) :
  Py.rstrip (a +:+ b)
  = if has_nonspace b then a +:+ Py.rstrip b else Py.rstrip a.
Proof.
  induction a as [|c a IH].
  - change ("" +:+ b) with b. change ("" +:+ Py.rstrip b) with (Py.rstrip b).
    destruct (has_nonspace b) eqn:E; [reflexivity|].
    rewrite <- rstrip_nonspace in E.
    destruct (Py.rstrip b) as [|c r] eqn:R; [reflexivity|].
    destruct (rstrip_ends b) as [R'|R']; [congruence|].
    apply ends_has_nonspace in R'. congruence.
  - change (String c a +:+ b) with (String c (a +:+ b)).
    cbn [Py.rstrip]. rewrite IH.
    destruct (has_nonspace b) eqn:E; [|reflexivity].
    change (String c a +:+ Py.rstrip b) with (String c (a +:+ Py.rstrip b)).
    destruct (a +:+ Py.rstrip b) eqn:R; [|reflexivity].
    rewrite <- rstrip_nonspace in E.
    destruct a; [|discriminate R].
    change ("" +:+ Py.rstrip b) with (Py.rstrip b) in R.
    rewrite R in E. discriminate.
Qed.

Lemma rstrip_id (s : string) : ends_nonspace s = true -> Py.rstrip s = s.
Proof.
  unfold ends_nonspace.
  induction s as [|c s IH]; [discriminate|].
  destruct s as [|c' s'].
  - simpl. intros H. now destruct (Py.isspace c).
  - intros H. specialize (IH H). remember (String c' s') as t.
    cbn [Py.rstrip]. rewrite IH. now subst t.
Qed.

Lemma lstrip_id (s : string) : starts_nonspace s = true -> Py.lstrip s = s.
Proof.
  destruct s as [|c s]; simpl; [discriminate|]. now destruct (Py.isspace c).
Qed.

Lemma starts_has_nonspace (s : string) :
  starts_nonspace s = true -> has_nonspace s = true.
Proof. destruct s; simpl; [discriminate|]. now intros ->. Qed.

Lemma starts_nonspace_app (a b : string) :
  starts_nonspace a = true -> starts_nonspace (a +:+ b) = true.
Proof. now destruct a. Qed.

(** [strip] keeps every occurrence of a string that starts and ends with a
    character it does not remove. *)
Lemma occurs_strip (n h : string) :
  starts_nonspace n = true -> ends_nonspace n = true ->
  occurs n h -> occurs n (Py.strip h).
Proof.
  intros Hs He (pre & post & ->). unfold Py.strip.
  assert (L : exists pre', Py.lstrip (pre +:+ n +:+ post)
                           = pre' +:+ n +:+ post).
  { rewrite lstrip_app. destruct (has_nonspace pre); [eauto|].
    exists "". change ("" +:+ n +:+ post) with (n +:+ post).
    apply lstrip_id. exact (starts_nonspace_app n post Hs). }
  destruct L as [pre' ->].
  rewrite <- append_assoc, rstrip_app.
  destruct (has_nonspace post).
  - rewrite append_assoc. now exists pre', (Py.rstrip post).
  - rewrite rstrip_app, (starts_has_nonspace n Hs), (rstrip_id n He).
    apply occurs_app_l, occurs_refl.
Qed.

Lemma pretty_N_go_starts (x : N) (s : string) :
  (0 < x)%N \/ starts_nonspace s = true ->
  starts_nonspace (pretty_N_go x s) = true.
Proof.
  revert s. induction (N.lt_wf_0 x) as [x _ IH]. intros s H.
  assert (x = 0 \/ 0 < x)%N as [->|Hx] by lia.
  - rewrite pretty_N_go_0. destruct H as [H|H]; [lia|exact H].
  - rewrite pretty_N_go_step by exact Hx.
    apply IH; [now apply N.div_lt|]. right.
    unfold pretty_N_char. simpl. now repeat case_match.
Qed.

Lemma pretty_starts (n : Z) : 0 < n -> starts_nonspace (pretty n) = true.
Proof.
  destruct n as [|p|p]; try lia. intros _.
  change (pretty (Z.pos p)) with (pretty_N_go (N.pos p) "").
  apply pretty_N_go_starts. left. lia.
Qed.

Lemma in_extra_parts (m : string) (l : list string) (n : Z) (i : bool) :
  (m <> "none" -> In ("with " +:+ m +:+ " milk") (extra_parts m l n i)) /\
  (l <> [] -> In ("+" +:+ Py.join ", " l) (extra_parts m l n i)) /\
  (i = true -> In "(iced)" (extra_parts m l n i)) /\
  (0 < n -> In (pretty n +:+ " tsp sugar") (extra_parts m l n i)).
Proof.
  unfold extra_parts. rewrite !in_app_iff. repeat split.
  - intros H. apply String.eqb_neq in H. rewrite H. simpl. auto.
  - intros H. destruct l; [contradiction|]. simpl. auto.
  - intros ->. simpl. auto.
  - intros H. apply Z.ltb_lt in H. rewrite H. simpl. auto.
Qed.

(** A string without whitespace at its ends that occurs in a part occurs
    in the description. *)
Lemma occurs_description
    (needle part b s m : string) (l : list string) (n : Z) (i : bool) :
  starts_nonspace needle = true -> ends_nonspace needle = true ->
  occurs needle part -> In part (extra_parts m l n i) ->
  occurs needle (CoffeeOrder._generate_description b s m l n i).
Proof.
  intros Hs He Ho Hi. rewrite description_eq.
  destruct (extra_parts m l n i) as [|x parts] eqn:E; [contradiction|].
  do 4 apply occurs_app_l. apply occurs_strip; [exact Hs|exact He|].
  apply (occurs_trans _ part); [exact Ho|]. now apply occurs_join.
Qed.

(** X13: the text of an order shows every extra: the milk as "with ... milk",
    each syrup whose name has no whitespace at its ends, "(iced)", the sugar
    as "... tsp sugar", and, when there is any extra, the size and the base. *)
Theorem text_shows_extras
    (b s m : string) (l : list string) (n : Z) (i : bool)
    (pr : option pricing_t) (order : CoffeeOrder.t) :
  CoffeeOrder.__init__ b s m l n i pr = Ok order ->
  let text := CoffeeOrder.__str__ order in
  (m <> "none" -> Py.str_in ("with " +:+ m +:+ " milk") text = true) /\
  (forall x, In x l -> starts_nonspace x = true -> ends_nonspace x = true ->
     Py.str_in x text = true) /\
  (i = true -> Py.str_in "(iced)" text = true) /\
  (0 < n -> Py.str_in (pretty n +:+ " tsp sugar") text = true) /\
  (no_extras m l n i = false -> Py.str_in (s +:+ " " +:+ b) text = true).
Proof.
  intros H text. subst text.
  destruct (str_of_init b s m l n i pr order H) as [D S].
  destruct (in_extra_parts m l n i) as (Im & Il & Ii & In').
  assert (T : no_extras m l n i = false ->
              CoffeeOrder.__str__ order
              = CoffeeOrder._generate_description b s m l n i).
  { intros N. now rewrite S, N, D. }
  assert (X : forall needle part,
              starts_nonspace needle = true -> ends_nonspace needle = true ->
              occurs needle part -> In part (extra_parts m l n i) ->
              Py.str_in needle (CoffeeOrder.__str__ order) = true).
  { intros needle part Hs He Ho Hi. rewrite T.
    - apply occurs_str_in. now apply (occurs_description needle part).
    - destruct (no_extras m l n i) eqn:N; [|reflexivity].
      apply extra_parts_nil in N. rewrite N in Hi. contradiction. }
  split; [|split; [|split; [|split]]].
  - intros Hm. apply (X _ ("with " +:+ m +:+ " milk")); auto.
    + do 2 apply ends_nonspace_app. reflexivity.
    + apply occurs_refl.
  - intros x Hx Hs He. apply (X _ ("+" +:+ Py.join ", " l)); auto.
    + apply occurs_app_l. now apply occurs_join.
    + apply Il. now destruct l.
  - intros Hi. apply (X _ "(iced)"); auto. apply occurs_refl.
  - intros Hn. apply (X _ (pretty n +:+ " tsp sugar")); auto.
    + apply starts_nonspace_app. now apply pretty_starts.
    + apply ends_nonspace_app. reflexivity.
    + apply occurs_refl.
  - intros N. rewrite (T N), description_eq.
    destruct (extra_parts m l n i) as [|x parts] eqn:E.
    { apply extra_parts_nil in E. congruence. }
    apply occurs_str_in.
    exists "", (" " +:+ Py.strip (Py.join " " (x :: parts))).
    change ("" +:+ (s +:+ " " +:+ b)
            +:+ " " +:+ Py.strip (Py.join " " (x :: parts)))
      with ((s +:+ " " +:+ b)
            +:+ " " +:+ Py.strip (Py.join " " (x :: parts))).
    now rewrite !append_assoc.
Qed.

(** The text of the source's own full order: a large iced latte with oat
    milk and vanilla. *)
Lemma text_shows_extras_witness :
  exists order,
    CoffeeOrder.__init__ "latte" "large" "oat" ["vanilla"] 0 true
      (Some pricing) = Ok order /\
    Py.str_in "with oat milk" (CoffeeOrder.__str__ order) = true /\
    Py.str_in "vanilla" (CoffeeOrder.__str__ order) = true /\
    Py.str_in "(iced)" (CoffeeOrder.__str__ order) = true /\
    Py.str_in "large latte" (CoffeeOrder.__str__ order) = true.
Proof.
  eexists. split; [vm_compute; reflexivity|].
  match goal with
  | |- context [CoffeeOrder.__str__ ?o] =>
      destruct (text_shows_extras "latte" "large" "oat" ["vanilla"] 0 true
                  (Some pricing) o) as (Hm & Hl & Hi & _ & Hb);
        [vm_compute; reflexivity|]
  end.
  split; [apply Hm; discriminate|].
  split; [apply Hl; [simpl; tauto|reflexivity|reflexivity]|].
  split; [apply Hi; reflexivity|].
  apply Hb. reflexivity.
Defined.
